(** * Papyrus language tooling: syntax-tree core and editor glue

    Three parts are developed here.

    - [InternalSyntax]: the C# class [FunctionHeaderSyntax] of
      [DarkId.Papyrus.LanguageService.Syntax.InternalSyntax], a green node
      with six typed slots, its kind, its red projection, its two visitor
      entry points and its child enumeration.
    - [GreenModel]: the green-node base notions the class inherits (width,
      construction from a kind and a child list, copy-on-write replacement).
    - [Extension]: the TypeScript editor glue, [resolveInstallPath] of
      [PathResolver.ts] and the debug adapter descriptor factory. *)

From Stdlib Require Import List String Ascii ZArith Lia Bool.
Import ListNotations.

Set Implicit Arguments.
Set Warnings "-register-all".

(* ===================================================================== *)
(** ** C# syntax nodes                                                    *)
(* ===================================================================== *)

Module InternalSyntax.

(** A C# reference is either [null] or an object. *)
Definition ref (A : Type) : Type := option A.
Definition null {A : Type} : ref A := None.

(** The exceptions the class can raise. *)
Inductive Exception : Type :=
| NotImplementedException
| NullReferenceException.

(** An iterator block ([yield return]) run to its end: the items it
    yielded, in order, and how it stopped (a value, or the exception that
    ended the enumeration after the items already yielded). *)
Definition Iterator (Y A : Type) : Type := (list Y * (Exception + A))%type.

Definition iter_ret {Y A : Type} (a : A) : Iterator Y A := ([], inr a).

Definition iter_bind {Y A B : Type} (m : Iterator Y A) (f : A -> Iterator Y B)
  : Iterator Y B :=
  match m with
  | (ys, inl e) => (ys, inl e)
  | (ys, inr a) => let (ys', r) := f a in (ys ++ ys', r)
  end.

Definition yield_return {Y : Type} (y : Y) : Iterator Y unit := ([y], inr tt).

Definition iter_throw {Y A : Type} (e : Exception) : Iterator Y A := ([], inl e).

Declare Scope iter_scope.
Delimit Scope iter_scope with iter.
Notation "c1 ;; c2" := (iter_bind c1 (fun _ => c2))
  (at level 61, right associativity) : iter_scope.

Fixpoint foreach_list {Y X : Type} (xs : list X) (body : X -> Iterator Y unit)
  : Iterator Y unit :=
  match xs with
  | [] => iter_ret tt
  | x :: rest => iter_bind (body x) (fun _ => foreach_list rest body)
  end.

(** [foreach (var x in xs) body]: calling [GetEnumerator] on a null
    reference raises [NullReferenceException]. *)
Definition foreach {Y X : Type} (xs : ref (list X)) (body : X -> Iterator Y unit)
  : Iterator Y unit :=
  match xs with
  | None => iter_throw NullReferenceException
  | Some l => foreach_list l body
  end.

Definition yielded {Y A : Type} (it : Iterator Y A) : list Y := fst it.
Definition completed {Y A : Type} (it : Iterator Y A) : bool :=
  match snd it with inr _ => true | inl _ => false end.

Section FunctionHeader.

(** The declarations the class uses and that live in other files: the
    kind enumeration with its member [SyntaxKind.FunctionHeader], and the
    four green-node classes of the slots. *)
Variable SyntaxKind : Type.
Variable SyntaxKind_FunctionHeader : SyntaxKind.
Variables TypeIdentifierSyntax SyntaxToken ExpressionSyntax
          FunctionParameterSyntax : Type.

(** The get-only auto-properties of the class. *)
Record FunctionHeaderSyntax : Type := mkFunctionHeaderSyntax {
  TypeIdentifier : ref TypeIdentifierSyntax;
  FunctionOrEventKeyword : ref SyntaxToken;
  Identifier : ref ExpressionSyntax;
  OpenParen : ref SyntaxToken;
  Parameters : ref (list (ref FunctionParameterSyntax));
  CloseParen : ref SyntaxToken
}.

(** [GreenNode] as the static type of a child: one injection per class
    that derives from it here (the implicit upcast of C#). *)
Inductive GreenNode : Type :=
| GreenTypeIdentifier (n : TypeIdentifierSyntax)
| GreenToken (n : SyntaxToken)
| GreenExpression (n : ExpressionSyntax)
| GreenFunctionParameter (n : FunctionParameterSyntax)
| GreenFunctionHeader (n : FunctionHeaderSyntax).

Definition upcast {A : Type} (inj : A -> GreenNode) (r : ref A) : ref GreenNode :=
  option_map inj r.

(** Modelled from the spec: the red node class [SyntaxNode], declared in
    another file of the language service; a red node refers to exactly one
    green node, has an absolute start position and an optional red parent. *)
Inductive SyntaxNode : Type :=
| RedNode (Green : GreenNode) (Position : Z) (Parent : ref SyntaxNode).

Definition Green (r : SyntaxNode) : GreenNode :=
  match r with RedNode g _ _ => g end.
Definition Position (r : SyntaxNode) : Z :=
  match r with RedNode _ p _ => p end.
Definition Parent (r : SyntaxNode) : ref SyntaxNode :=
  match r with RedNode _ _ p => p end.

(** The constructor: six assignments, in the order of the source. A
    constructor either returns the object or raises. *)
Definition new_FunctionHeaderSyntax
    (typeIdentifier : ref TypeIdentifierSyntax)
    (functionorEventKeyword : ref SyntaxToken)
    (identifier : ref ExpressionSyntax)
    (openParen : ref SyntaxToken)
    (parameters : ref (list (ref FunctionParameterSyntax)))
    (closeParen : ref SyntaxToken)
  : Exception + FunctionHeaderSyntax :=
  inr {| TypeIdentifier := typeIdentifier;
         FunctionOrEventKeyword := functionorEventKeyword;
         Identifier := identifier;
         OpenParen := openParen;
         Parameters := parameters;
         CloseParen := closeParen |}.

(** [public override SyntaxKind Kind => SyntaxKind.FunctionHeader;] *)
Definition Kind (this : FunctionHeaderSyntax) : SyntaxKind :=
  SyntaxKind_FunctionHeader.

(** [CreateRed]: the body is a single [throw]. *)
Definition CreateRed (this : FunctionHeaderSyntax)
    (parent : ref SyntaxNode) (position : Z) : Exception + SyntaxNode :=
  inl NotImplementedException.

(** Modelled from the spec: the visitor interfaces [IGreenNodeVisitor] and
    [IGreenNodeVisitor<T>], declared in another file of the language
    service; every concrete node class has exactly one [Visit] overload. An
    effecting handler acts on the visitor's state [S]. *)
Record IGreenNodeVisitor (S : Type) : Type := {
  Visit_TypeIdentifier : TypeIdentifierSyntax -> S -> S;
  Visit_Token : SyntaxToken -> S -> S;
  Visit_Expression : ExpressionSyntax -> S -> S;
  Visit_FunctionParameter : FunctionParameterSyntax -> S -> S;
  Visit_FunctionHeader : FunctionHeaderSyntax -> S -> S
}.

Record IGreenNodeVisitorT (T : Type) : Type := {
  VisitT_TypeIdentifier : TypeIdentifierSyntax -> T;
  VisitT_Token : SyntaxToken -> T;
  VisitT_Expression : ExpressionSyntax -> T;
  VisitT_FunctionParameter : FunctionParameterSyntax -> T;
  VisitT_FunctionHeader : FunctionHeaderSyntax -> T
}.

(** [visitor.Visit(this)]: [this] has static type [FunctionHeaderSyntax],
    so overload resolution picks that overload. *)
Definition Accept {S : Type} (this : FunctionHeaderSyntax)
    (visitor : IGreenNodeVisitor S) : S -> S :=
  Visit_FunctionHeader visitor this.

Definition AcceptT {T : Type} (this : FunctionHeaderSyntax)
    (visitor : IGreenNodeVisitorT T) : T :=
  VisitT_FunctionHeader visitor this.

(** [ChildrenInternal]: four slots, then the parameters, then the close
    delimiter. *)
Definition ChildrenInternal (this : FunctionHeaderSyntax)
  : Iterator (ref GreenNode) unit :=
  (yield_return (upcast GreenTypeIdentifier (TypeIdentifier this)) ;;
   yield_return (upcast GreenToken (FunctionOrEventKeyword this)) ;;
   yield_return (upcast GreenExpression (Identifier this)) ;;
   yield_return (upcast GreenToken (OpenParen this)) ;;
   foreach (Parameters this)
     (fun parameter => yield_return (upcast GreenFunctionParameter parameter)) ;;
   yield_return (upcast GreenToken (CloseParen this)))%iter.

(** *** Instrumented visitors *)

(** Which handler ran, and on which node. *)
Inductive HandlerCall : Type :=
| CallTypeIdentifier (n : TypeIdentifierSyntax)
| CallToken (n : SyntaxToken)
| CallExpression (n : ExpressionSyntax)
| CallFunctionParameter (n : FunctionParameterSyntax)
| CallFunctionHeader (n : FunctionHeaderSyntax).

(** A visitor wrapped so that every handler also appends its call to a
    log. *)
Definition recording {S : Type} (v : IGreenNodeVisitor S)
  : IGreenNodeVisitor (S * list HandlerCall) :=
  {| Visit_TypeIdentifier := fun n st =>
       (Visit_TypeIdentifier v n (fst st), snd st ++ [CallTypeIdentifier n]);
     Visit_Token := fun n st =>
       (Visit_Token v n (fst st), snd st ++ [CallToken n]);
     Visit_Expression := fun n st =>
       (Visit_Expression v n (fst st), snd st ++ [CallExpression n]);
     Visit_FunctionParameter := fun n st =>
       (Visit_FunctionParameter v n (fst st), snd st ++ [CallFunctionParameter n]);
     Visit_FunctionHeader := fun n st =>
       (Visit_FunctionHeader v n (fst st), snd st ++ [CallFunctionHeader n]) |}.

(** The effecting visitor that stores what the handlers of a
    generic-result visitor return. *)
Definition storing {T : Type} (v : IGreenNodeVisitorT T)
  : IGreenNodeVisitor (list T) :=
  {| Visit_TypeIdentifier := fun n out => out ++ [VisitT_TypeIdentifier v n];
     Visit_Token := fun n out => out ++ [VisitT_Token v n];
     Visit_Expression := fun n out => out ++ [VisitT_Expression v n];
     Visit_FunctionParameter := fun n out => out ++ [VisitT_FunctionParameter v n];
     Visit_FunctionHeader := fun n out => out ++ [VisitT_FunctionHeader v n] |}.

End FunctionHeader.

End InternalSyntax.

(* ===================================================================== *)
(** ** The green-node base model                                          *)
(* ===================================================================== *)

Module GreenModel.

Section Tree.

Variable NodeKind : Type.

(** Modelled from the spec: the [GreenNode] base class and the token class,
    declared in other files of the language service. A token is a leaf with
    a kind, the exact source text it covers (code and trivia) and an
    optional diagnostic; a green node is a composite with a kind, an ordered
    sequence of children and a width that is computed once, when the node
    is built, and cached. *)
Inductive Green : Type :=
| Token (kind : NodeKind) (fullText : string) (diagnostic : option string)
| Node (kind : NodeKind) (children : list Green) (cachedWidth : nat).

Definition kind_of (g : Green) : NodeKind :=
  match g with Token k _ _ => k | Node k _ _ => k end.

Definition children_of (g : Green) : list Green :=
  match g with Token _ _ _ => [] | Node _ cs _ => cs end.

(** Modelled from the spec: the width of a token is the length of its full
    text; the width of a composite is the cached number. *)
Definition width (g : Green) : nat :=
  match g with
  | Token _ t _ => String.length t
  | Node _ _ w => w
  end.

Definition sum_widths (cs : list Green) : nat :=
  fold_right (fun c acc => width c + acc) 0 cs.

(** Modelled from the spec: construction from a kind and an ordered child
    list; the width is derived from the children at this point. *)
Definition make_node (k : NodeKind) (cs : list Green) : Green :=
  Node k cs (sum_widths cs).

(** A missing token: expected but not found, of width zero, with a
    diagnostic. *)
Definition missing_token (k : NodeKind) (message : string) : Green :=
  Token k EmptyString (Some message).

(** Modelled from the spec: an edit never mutates a node in place; the
    subtree at [path] is replaced and every ancestor on the path is built
    again, the siblings being reused as they are. A path that leaves the
    tree changes nothing. *)
Fixpoint replace_at (path : list nat) (new : Green) (g : Green) : Green :=
  match path with
  | [] => new
  | i :: rest =>
      match g with
      | Token _ _ _ => g
      | Node k cs _ =>
          match nth_error cs i with
          | Some c =>
              make_node k (firstn i cs ++ replace_at rest new c :: skipn (S i) cs)
          | None => g
          end
      end
  end.

(** The node itself and all its descendants, in preorder. *)
Fixpoint subtrees (g : Green) : list Green :=
  g :: match g with
       | Token _ _ _ => []
       | Node _ cs _ => flat_map subtrees cs
       end.

(** The width equation at one node; a token has no children and nothing
    to check. *)
Definition width_equation (g : Green) : Prop :=
  match g with
  | Token _ _ _ => True
  | Node _ cs w => w = sum_widths cs
  end.

Definition width_equationb (g : Green) : bool :=
  match g with
  | Token _ _ _ => true
  | Node _ cs w => Nat.eqb w (sum_widths cs)
  end.

(** The equation holds at a node and at all its descendants. *)
Definition width_invariant_below (g : Green) : Prop :=
  forall n, In n (subtrees g) -> width_equation n.

(** The trees the operations can produce: tokens, nodes built from
    produced children, and replacements inside a produced tree. *)
Inductive Produced : Green -> Prop :=
| Produced_token : forall k t d, Produced (Token k t d)
| Produced_node : forall k cs,
    (forall c, In c cs -> Produced c) -> Produced (make_node k cs)
| Produced_replace : forall path new g,
    Produced g -> Produced new -> Produced (replace_at path new g).

End Tree.

(** A function header whose slots hold generic green nodes, and the generic
    node built from its child enumeration. A null child has no width, and an
    enumeration that fails gives no node. *)
Section Header.

Variable NodeKind : Type.
Variable FunctionHeaderKind : NodeKind.

Definition GreenHeader : Type :=
  InternalSyntax.FunctionHeaderSyntax (Green NodeKind) (Green NodeKind)
                                      (Green NodeKind) (Green NodeKind).

Definition erase
    (g : InternalSyntax.GreenNode (Green NodeKind) (Green NodeKind)
                                  (Green NodeKind) (Green NodeKind))
  : option (Green NodeKind) :=
  match g with
  | InternalSyntax.GreenTypeIdentifier _ _ _ n => Some n
  | InternalSyntax.GreenToken _ _ _ n => Some n
  | InternalSyntax.GreenExpression _ _ _ n => Some n
  | InternalSyntax.GreenFunctionParameter _ _ _ n => Some n
  | InternalSyntax.GreenFunctionHeader _ => None
  end.

Fixpoint all_present {A B : Type} (f : A -> option B) (l : list (option A))
  : option (list B) :=
  match l with
  | [] => Some []
  | None :: _ => None
  | Some a :: rest =>
      match f a, all_present f rest with
      | Some b, Some bs => Some (b :: bs)
      | _, _ => None
      end
  end.

Definition header_node (h : GreenHeader) : option (Green NodeKind) :=
  let it := InternalSyntax.ChildrenInternal h in
  if InternalSyntax.completed it then
    option_map (make_node FunctionHeaderKind)
               (all_present erase (InternalSyntax.yielded it))
  else None.

End Header.

End GreenModel.

(* ===================================================================== *)
(** ** TypeScript editor glue                                             *)
(* ===================================================================== *)

Module Extension.

Local Open Scope string_scope.

(** The enumeration [PapyrusGame]; the switches of [PathResolver.ts] name
    its three members. *)
Inductive PapyrusGame : Type :=
| fallout4
| skyrim
| skyrimSpecialEdition.

Definition PapyrusGame_eqb (a b : PapyrusGame) : bool :=
  match a, b with
  | fallout4, fallout4 => true
  | skyrim, skyrim => true
  | skyrimSpecialEdition, skyrimSpecialEdition => true
  | _, _ => false
  end.

(** What a [throw] or a rejected promise carries. *)
Inductive Thrown : Type :=
| Error (message : string)
| TypeError (message : string).

(** *** Asynchronous code: state and exceptions

    An [async] function awaited to its end takes the state it starts in
    and gives either a value or what it threw, with the state it leaves.
    Unlike a transaction, a throw keeps the effects already done. *)
Inductive Outcome (A : Type) : Type :=
| Returned (a : A)
| Threw (e : Thrown).
Arguments Threw {A} e.

Definition Async (St A : Type) : Type := St -> Outcome A * St.

Definition ret {St A : Type} (a : A) : Async St A := fun s => (Returned a, s).

Definition throw {St A : Type} (e : Thrown) : Async St A := fun s => (Threw e, s).

Definition bind {St A B : Type} (m : Async St A) (f : A -> Async St B) : Async St B :=
  fun s =>
    match m s with
    | (Returned a, s') => f a s'
    | (Threw e, s') => (Threw e, s')
    end.

(** [try { body } catch (_) { handler }] *)
Definition try_catch {St A : Type} (body : Async St A) (handler : Thrown -> Async St A)
  : Async St A :=
  fun s =>
    match body s with
    | (Returned a, s') => (Returned a, s')
    | (Threw e, s') => handler e s'
    end.

(** Reading the state without changing it. *)
Definition gets {St A : Type} (f : St -> A) : Async St A := fun s => (Returned (f s), s).

Declare Scope async_scope.
Delimit Scope async_scope with async.
Notation "x <- c1 ;; c2" := (bind c1 (fun x => c2))
  (at level 61, c1 at next level, right associativity) : async_scope.
Notation "c1 ;; c2" := (bind c1 (fun _ => c2))
  (at level 61, right associativity) : async_scope.
Local Open Scope async_scope.

(** Member access on a value that may be [undefined] or [null]. *)
Definition member {St A B : Type} (o : option A) (f : A -> B) : Async St B :=
  match o with
  | Some a => ret (f a)
  | None => throw (TypeError "Cannot read properties of undefined")
  end.

(** A JavaScript number as the code uses it here: an integer or [NaN]. *)
Inductive number : Type :=
| NaN
| Finite (z : Z).

(** *** PathResolver.ts *)

Definition getRegistryKeyForGame (game : PapyrusGame) : string :=
  match game with
  | fallout4 => "Fallout4"
  | skyrim => "Skyrim"
  | skyrimSpecialEdition => "Skyrim Special Edition"
  end.

Definition getDevelopmentCompilerFolderForGame (game : PapyrusGame) : string :=
  match game with
  | fallout4 => "fallout4"
  | skyrim => "does-not-exist"
  | skyrimSpecialEdition => "skyrim"
  end.

Definition getToolGameName (game : PapyrusGame) : string :=
  match game with
  | fallout4 => "Fallout4"
  | skyrim => "Skyrim"
  | skyrimSpecialEdition => "Skyrim"
  end.

Definition getDefaultFlagsFileNameForGame (game : PapyrusGame) : string :=
  if PapyrusGame_eqb game fallout4 then "Institute_Papyrus_Flags.flg"
  else "TESV_Papyrus_Flags.flg".

(** The options of [new winreg({ key })] and the item [reg.get] gives. *)
Record Registry : Type := new_winreg { key : string }.
Record RegistryItem : Type := { value : string }.

(** [ExtensionContext], as far as the code uses it. *)
Record ExtensionContext : Type := {
  extensionPath : string;
  asAbsolutePath : string -> string
}.

(** What [PathResolver.ts] takes from Node, winreg and [Utilities]:
    [promisify(fs.exists)] resolves to a boolean and never rejects;
    [reg.get] may reject, and may resolve to [null] when the value cannot be
    read; [process.arch] and [inDevelopmentEnvironment()] are read from the
    process. *)
Record PathEnv (World : Type) : Type := {
  exists_ : string -> World -> bool * World;
  process_arch : string;
  reg_get : Registry -> string -> Async World (option RegistryItem);
  inDevelopmentEnvironment : World -> bool
}.

Section ResolveInstallPath.

Variable World : Type.
Variable env : PathEnv World.

Definition exists_async (p : string) : Async World bool :=
  fun w => let (b, w') := exists_ env p w in (Returned b, w').

Definition registryKey (game : PapyrusGame) : string :=
  "\SOFTWARE\" ++
  (if String.eqb (process_arch env) "x64" then "WOW6432Node\" else EmptyString) ++
  "Bethesda Softworks\" ++ getRegistryKeyForGame game.

(** The [try] block returns from the function ([Some]) or falls out of
    the block ([None]); the [catch] is empty. *)
Definition resolveInstallPath (game : PapyrusGame) (installPath : string)
    (context : ExtensionContext) : Async World (option string) :=
  found <- exists_async installPath ;;
  if found then ret (Some installPath)
  else
    let reg := new_winreg (registryKey game) in
    fromRegistry <-
      try_catch
        (item <- reg_get env reg "installed path" ;;
         itemValue <- member item value ;;
         found' <- exists_async itemValue ;;
         if found' then ret (Some itemValue) else ret None)
        (fun _ => ret None) ;;
    match fromRegistry with
    | Some p => ret (Some p)
    | None =>
        dev <- gets (inDevelopmentEnvironment env) ;;
        if dev && negb (PapyrusGame_eqb game skyrim)
        then ret (Some (asAbsolutePath context "../../dependencies/compilers"))
        else ret None
    end.

End ResolveInstallPath.

(** [resolveInstallPath] as its description reads, case by case: the
    configured path when it exists; otherwise the registry value when the
    lookup gives one and it exists; otherwise the development fallback, also
    when the lookup fails. The second component is the state left behind. *)
Definition developmentFallback {World : Type} (env : PathEnv World)
    (game : PapyrusGame) (context : ExtensionContext) (w : World) : option string :=
  if inDevelopmentEnvironment env w then
    match game with
    | skyrim => None
    | _ => Some (asAbsolutePath context "../../dependencies/compilers")
    end
  else None.

Definition resolveInstallPath_described {World : Type} (env : PathEnv World)
    (game : PapyrusGame) (installPath : string) (context : ExtensionContext)
    (w : World) : option string * World :=
  let (configuredExists, w0) := exists_ env installPath w in
  if configuredExists then (Some installPath, w0)
  else
    match reg_get env (new_winreg (registryKey env game)) "installed path" w0 with
    | (Returned (Some item), w1) =>
        let (registryExists, w2) := exists_ env (value item) w1 in
        if registryExists then (Some (value item), w2)
        else (developmentFallback env game context w2, w2)
    | (Returned None, w1) => (developmentFallback env game context w1, w1)
    | (Threw _, w1) => (developmentFallback env game context w1, w1)
    end.

(** *** PapyrusDebugAdapterDescriptorFactory *)

Record DebugAdapterExecutable : Type := new_DebugAdapterExecutable {
  command : string;
  args : list string
}.

(** The factory only ever returns executables. *)
Definition DebugAdapterDescriptor : Type := DebugAdapterExecutable.

Definition double_quote : string := String (ascii_of_nat 34) EmptyString.

(** [new DebugAdapterExecutable('node', ['-e', q])], [q] being the string
    of two double-quote characters. *)
Definition noopExecutable : DebugAdapterExecutable :=
  new_DebugAdapterExecutable "node" ["-e"; double_quote ++ double_quote].

Record IDebugToolArguments : Type := {
  arg_port : option number;
  arg_projectPath : option string;
  defaultScriptSourceFolder : option string;
  defaultAdditionalImports : option string;
  creationKitInstallPath : string;
  relativeIniPaths : list string;
  clientProcessId : number;
  remotesInstallPath : string
}.

Definition getDefaultPortForGame (game : PapyrusGame) : number :=
  if PapyrusGame_eqb game fallout4 then Finite 2077 else Finite 43201.

(** The members of [DebugSupportInstallState] that [ensureReadyFlow] names,
    and the others. *)
Inductive DebugSupportInstallState : Type :=
| incorrectVersion
| notInstalled
| gameDisabled
| gameMissing
| otherInstallState (name : string).

(** The session configuration, as far as the factory reads and writes it. *)
Record Configuration : Type := {
  game : PapyrusGame;
  port : option number;
  projectPath : option string;
  noop : option bool
}.

Record IPapyrusDebugSession : Type := { configuration : Configuration }.

Definition set_noop (b : bool) (session : IPapyrusDebugSession) : IPapyrusDebugSession :=
  {| configuration :=
       {| game := game (configuration session);
          port := port (configuration session);
          projectPath := projectPath (configuration session);
          noop := Some b |} |}.

Record IGameConfig : Type := {
  ignoreDebuggerVersion : bool;
  creationKitIniFiles : list string;
  installPath : string;
  modDirectoryPath : string
}.

(** The extension configuration, indexed by game; an entry may be
    [undefined]. *)
Definition IExtensionConfig : Type := PapyrusGame -> option IGameConfig.

Record PapyrusIniSection : Type := {
  sScriptSourceFolder : option string;
  sAdditionalImports : option string
}.

Record ICreationKitInfo : Type := {
  resolvedInstallPath : option string;
  Papyrus : option PapyrusIniSection
}.

(** The services the factory gets by injection, the VS Code API and the
    helpers it imports. A call that the source does not await is still a
    call: what it does synchronously, a throw included, happens in place. *)
Record Services (World : Type) : Type := {
  getInstallState : PapyrusGame -> Async World DebugSupportInstallState;
  config : Async World IExtensionConfig;
  creationKitInfos_get : PapyrusGame -> Async World ICreationKitInfo;
  getPyroRemPath : Async World string;
  getDebugToolPath : PapyrusGame -> Async World string;
  OutputChannel : Type;
  getLanguageClientHost_outputChannel : PapyrusGame -> Async World (option OutputChannel);
  appendLine : OutputChannel -> string -> Async World unit;
  showWarningMessage : string -> list string -> Async World (option string);
  showInformationMessage : string -> list string -> Async World (option string);
  executeCommand : string -> Async World unit;
  openExternal : string -> Async World unit;
  showGameDisabledMessage : PapyrusGame -> Async World unit;
  showGameMissingMessage : PapyrusGame -> Async World unit;
  getGameIsRunning : PapyrusGame -> Async World bool;
  PapyrusGame_toString : PapyrusGame -> string;
  getDisplayNameForGame : PapyrusGame -> string;
  getShortDisplayNameForGame : PapyrusGame -> string;
  getScriptExtenderName : PapyrusGame -> string;
  getScriptExtenderUrl : PapyrusGame -> string;
  toCommandLineArgs : IDebugToolArguments -> list string;
  VSCODE_PID : World -> option string;
  Number_parseInt : option string -> number
}.

(** The state the factory runs in: the session object the caller passes by
    reference, and the rest of the world. *)
Record Heap (World : Type) : Type := mkHeap {
  session : IPapyrusDebugSession;
  host : World
}.

Definition lift {World A : Type} (c : Async World A) : Async (Heap World) A :=
  fun h => let (r, w) := c (host h) in (r, mkHeap (session h) w).

Definition is_choice (selected : option string) (label : string) : bool :=
  match selected with
  | Some s => String.eqb s label
  | None => false
  end.

Definition is_undefined {A : Type} (o : option A) : bool :=
  match o with Some _ => false | None => true end.

(** [a || b] on a number that may be [undefined]: [undefined], [NaN] and
    zero are falsy. *)
Definition number_or (a : option number) (b : number) : number :=
  match a with
  | Some (Finite z) => if Z.eqb z 0 then b else Finite z
  | Some NaN => b
  | None => b
  end.

(** [!s] on a string that may be [null]: [null] and the empty string. *)
Definition string_falsy (s : option string) : bool :=
  match s with
  | Some EmptyString => true
  | Some _ => false
  | None => true
  end.

Section DebugAdapterDescriptorFactory.

Variable World : Type.
Variable svc : Services World.

(** The [switch] either returns from the function ([Some b]) or is left
    by [break] or by matching no case ([None]). *)
Definition ensureReadyFlow (game : PapyrusGame) : Async World bool :=
  installState <- getInstallState svc game ;;
  switched <-
    match installState with
    | incorrectVersion =>
        allConfig <- config svc ;;
        ignoreVersion <- member (allConfig game) ignoreDebuggerVersion ;;
        if ignoreVersion then ret None
        else
          selectedUpdateOption <-
            showWarningMessage svc
              ("The Papyrus debugging support " ++ getScriptExtenderName svc game
               ++ " plugin needs to be updated.")
              ["Update"; "Remind Me Later"; "Cancel"] ;;
          if is_choice selectedUpdateOption "Update" then
            executeCommand svc
              ("papyrus." ++ PapyrusGame_toString svc game ++ ".installDebuggerSupport") ;;
            ret (Some false)
          else if is_choice selectedUpdateOption "Cancel"
                  || is_undefined selectedUpdateOption then
            ret (Some false)
          else ret None
    | notInstalled =>
        let getExtenderOption := "Get " ++ getScriptExtenderName svc game in
        let installOption := "Install " ++ getScriptExtenderName svc game ++ " Plugin" in
        selectedInstallOption <-
          showInformationMessage svc
            ("Papyrus debugging support requires a plugin for "
             ++ getDisplayNameForGame svc game
             ++ " Script Extender (" ++ getScriptExtenderName svc game
             ++ ") to be installed. After installation has completed, launch "
             ++ getShortDisplayNameForGame svc game
             ++ " with " ++ getScriptExtenderName svc game
             ++ " and wait until the main menu has loaded.")
            [getExtenderOption; installOption; "Cancel"] ;;
        (if is_choice selectedInstallOption installOption then
           executeCommand svc
             ("papyrus." ++ PapyrusGame_toString svc game ++ ".installDebuggerSupport")
         else if is_choice selectedInstallOption getExtenderOption then
           openExternal svc (getScriptExtenderUrl svc game)
         else ret tt) ;;
        ret (Some false)
    | gameDisabled =>
        showGameDisabledMessage svc game ;;
        ret (Some false)
    | gameMissing =>
        showGameMissingMessage svc game ;;
        ret (Some false)
    | otherInstallState _ => ret None
    end ;;
  match switched with
  | Some result => ret result
  | None =>
      running <- getGameIsRunning svc game ;;
      if negb running then
        selectedGameRunningOption <-
          showWarningMessage svc
            ("Make sure that " ++ getDisplayNameForGame svc game
             ++ " is running and is either in-game or at the main menu.")
            ["Continue"; "Cancel"] ;;
        if negb (is_choice selectedGameRunningOption "Continue")
        then ret false
        else ret true
      else ret true
  end.

Definition createDebugAdapterDescriptor (_executable : DebugAdapterExecutable)
  : Async (Heap World) DebugAdapterDescriptor :=
  game <- gets (fun h => game (configuration (session h))) ;;
  if negb (PapyrusGame_eqb game fallout4)
     && negb (PapyrusGame_eqb game skyrimSpecialEdition)
  then throw (Error ("'" ++ PapyrusGame_toString svc game
                     ++ "' is not supported by the Papyrus debugger."))
  else
    ready <- lift (ensureReadyFlow game) ;;
    if negb ready then
      (fun h => (Returned tt, mkHeap (set_noop true (session h)) (host h))) ;;
      ret noopExecutable
    else
      allConfig <- lift (config svc) ;;
      let config := allConfig game in
      creationKitInfo <- lift (creationKitInfos_get svc game) ;;
      if string_falsy (resolvedInstallPath creationKitInfo) then
        throw (Error ("Creation Kit install path for "
                      ++ getDisplayNameForGame svc game ++ " is not configured."))
      else
        sessionPort <- gets (fun h => port (configuration (session h))) ;;
        sessionProjectPath <- gets (fun h => projectPath (configuration (session h))) ;;
        iniFiles <- member config creationKitIniFiles ;;
        pid <- gets (fun h => Number_parseInt svc (VSCODE_PID svc (host h))) ;;
        remotes <- lift (getPyroRemPath svc) ;;
        let toolArguments :=
          {| arg_port := Some (number_or sessionPort (getDefaultPortForGame game));
             arg_projectPath := sessionProjectPath;
             creationKitInstallPath :=
               match resolvedInstallPath creationKitInfo with
               | Some p => p
               | None => EmptyString
               end;
             relativeIniPaths := iniFiles;
             defaultScriptSourceFolder :=
               match Papyrus creationKitInfo with
               | Some sec => sScriptSourceFolder sec
               | None => None
               end;
             defaultAdditionalImports :=
               match Papyrus creationKitInfo with
               | Some sec => sAdditionalImports sec
               | None => None
               end;
             clientProcessId := pid;
             remotesInstallPath := remotes |} in
        toolPath <- lift (getDebugToolPath svc game) ;;
        let commandLineArgs := toCommandLineArgs svc toolArguments in
        sessionGame <- gets (fun h => Extension.game (configuration (session h))) ;;
        outputChannel <- lift (getLanguageClientHost_outputChannel svc sessionGame) ;;
        match outputChannel with
        | Some channel =>
            lift (appendLine svc channel
                    ("Debug session: Launching debug adapter client: " ++ toolPath
                     ++ " " ++ String.concat " " commandLineArgs))
        | None => ret tt
        end ;;
        ret (new_DebugAdapterExecutable toolPath commandLineArgs).

End DebugAdapterDescriptorFactory.

End Extension.

(* ===================================================================== *)
(** ** Concrete inputs                                                    *)
(* ===================================================================== *)

Module Samples.

Import InternalSyntax.
Local Open Scope string_scope.

(** The header of [Function Foo(int a, int b = 1)], every node class
    standing for its source text; the return type is absent. *)
Definition header_Foo : FunctionHeaderSyntax string string string string :=
  {| TypeIdentifier := null;
     FunctionOrEventKeyword := Some "Function ";
     Identifier := Some "Foo";
     OpenParen := Some "(";
     Parameters := Some [Some "int a, "; Some "int b = 1"];
     CloseParen := Some ")" |}.

(** The same header over generic green nodes, the absent return type being
    a missing token. *)
Definition tok (t : string) : GreenModel.Green string :=
  GreenModel.Token "Token" t None.

Definition parameter_a : GreenModel.Green string :=
  GreenModel.make_node "FunctionParameter" [tok "int "; tok "a"; tok ", "].

Definition parameter_b : GreenModel.Green string :=
  GreenModel.make_node "FunctionParameter" [tok "int "; tok "b "; tok "= "; tok "1"].

Definition green_header_Foo : GreenModel.Green string :=
  GreenModel.make_node "FunctionHeader"
    [GreenModel.missing_token "TypeIdentifier" "expected a type";
     tok "Function "; tok "Foo"; tok "("; parameter_a; parameter_b; tok ")"].

(** The second parameter renamed, by replacement along the path [5; 1]. *)
Definition green_header_edited : GreenModel.Green string :=
  GreenModel.replace_at [5; 1]%nat (tok "count ") green_header_Foo.

Import Extension.

(** A world that is the log of the calls made so far; the debugger plugin's
    game is missing. *)
Definition logging {A : Type} (name : string) (a : A) : Async (list string) A :=
  fun w => (Returned a, (w ++ [name])%list).

Definition services_gameMissing : Services (list string) :=
  {| getInstallState := fun _ => logging "getInstallState" gameMissing;
     config := logging "config" (fun _ => None);
     creationKitInfos_get := fun _ =>
       logging "creationKitInfo"
               {| resolvedInstallPath := None; Papyrus := None |};
     getPyroRemPath := logging "getPyroRemPath" "pyro/remote";
     getDebugToolPath := fun _ => logging "getDebugToolPath" "proxy.exe";
     OutputChannel := unit;
     getLanguageClientHost_outputChannel := fun _ =>
       logging "getLanguageClientHost" (Some tt);
     appendLine := fun _ _ => logging "appendLine" tt;
     showWarningMessage := fun _ _ => logging "showWarningMessage" None;
     showInformationMessage := fun _ _ => logging "showInformationMessage" None;
     executeCommand := fun _ => logging "executeCommand" tt;
     openExternal := fun _ => logging "openExternal" tt;
     showGameDisabledMessage := fun _ => logging "showGameDisabledMessage" tt;
     showGameMissingMessage := fun _ => logging "showGameMissingMessage" tt;
     getGameIsRunning := fun _ => logging "getGameIsRunning" false;
     PapyrusGame_toString := fun g =>
       match g with
       | fallout4 => "fallout4"
       | skyrim => "skyrim"
       | skyrimSpecialEdition => "skyrimSpecialEdition"
       end;
     getDisplayNameForGame := getRegistryKeyForGame;
     getShortDisplayNameForGame := getToolGameName;
     getScriptExtenderName := fun g =>
       match g with fallout4 => "F4SE" | _ => "SKSE" end;
     getScriptExtenderUrl := fun _ => "https://example.invalid/extender";
     toCommandLineArgs := fun _ => [];
     VSCODE_PID := fun _ => None;
     Number_parseInt := fun _ => NaN |}.

Definition session_of (g : PapyrusGame) : IPapyrusDebugSession :=
  {| configuration :=
       {| game := g; port := None; projectPath := None; noop := None |} |}.

Definition heap_of (g : PapyrusGame) : Heap (list string) :=
  mkHeap (session_of g) [].

End Samples.

(* ===================================================================== *)
(** ** The [PathResolver] class                                           *)
(* ===================================================================== *)

Module PathResolverClass.

Import Extension.
Local Open Scope string_scope.
Local Open Scope async_scope.

Definition bundledPluginPath : string := "debug-plugin".

(** [getPluginDllName(game, legacy = false)]: an argument left out or
    [undefined] takes the default; the [default] case of the switch throws. *)
Definition getPluginDllName {St : Type} (toString : PapyrusGame -> string)
    (game : PapyrusGame) (legacy : option bool) : Async St string :=
  let legacy := match legacy with Some b => b | None => false end in
  match game with
  | fallout4 =>
      ret (if legacy then "DarkId.Papyrus.DebugServer.dll"
           else "DarkId.Papyrus.DebugServer.Fallout4.dll")
  | skyrimSpecialEdition => ret "DarkId.Papyrus.DebugServer.Skyrim.dll"
  | skyrim =>
      throw (Error ("'" ++ toString game
                    ++ "' is not supported by the Papyrus debugger."))
  end.

(** The entries of the [Map] [executableNames], in the order of the source. *)
Definition executableNames : list (PapyrusGame * string) :=
  [(skyrim, "Skyrim.exe");
   (fallout4, "Fallout4.exe");
   (skyrimSpecialEdition, "SkyrimSE.exe")].

(** [Map.prototype.get]: the value of the key, or [undefined]. *)
Fixpoint Map_get (entries : list (PapyrusGame * string)) (k : PapyrusGame)
  : option string :=
  match entries with
  | [] => None
  | (k', v) :: rest => if PapyrusGame_eqb k' k then Some v else Map_get rest k
  end.

(** [executableNames.get(game)!]: the assertion is erased at run time. *)
Definition getExecutableNameForGame (game : PapyrusGame) : option string :=
  Map_get executableNames game.

(** What the class is constructed with and what it imports: the
    configuration provider, the extension context, Node's [path.join], and
    the helpers of [PapyrusGame.ts]; [pr_env] is what [resolveInstallPath]
    needs. *)
Record Deps (World : Type) : Type := {
  pr_config : Async World IExtensionConfig;
  pr_context : ExtensionContext;
  pr_env : PathEnv World;
  path_join : list string -> string;
  pr_getScriptExtenderName : PapyrusGame -> string;
  pr_PapyrusGame_toString : PapyrusGame -> string
}.

Section Methods.

Variable World : Type.
Variable deps : Deps World.

Definition _getGameConfig (game : PapyrusGame) : Async World (option IGameConfig) :=
  allConfig <- pr_config deps ;;
  ret (allConfig game).

Definition _getExtensionPath : Async World string :=
  ret (extensionPath (pr_context deps)).

Definition _asExtensionAbsolutePath (path : string) : Async World string :=
  ret (asAbsolutePath (pr_context deps) path).

Definition _getExtenderPluginPath (game : PapyrusGame) : Async World string :=
  ret ("Data/" ++ pr_getScriptExtenderName deps game ++ "/Plugins").

Definition _getModMgrExtenderPluginPath (game : PapyrusGame) : Async World string :=
  ret (pr_getScriptExtenderName deps game ++ "/Plugins").

Definition getDebugPluginBundledPath (game : PapyrusGame) : Async World string :=
  dll <- getPluginDllName (pr_PapyrusGame_toString deps) game None ;;
  _asExtensionAbsolutePath (path_join deps [bundledPluginPath; dll]).

Definition getLanguageToolPath (game : PapyrusGame) : Async World string :=
  let toolGameName := getToolGameName game in
  _asExtensionAbsolutePath
    ("./bin/Debug/net472/DarkId.Papyrus.Host." ++ toolGameName
     ++ "/DarkId.Papyrus.Host." ++ toolGameName ++ ".exe").

Definition getDebugToolPath (game : PapyrusGame) : Async World string :=
  let toolGameName := getToolGameName game in
  _asExtensionAbsolutePath
    (("./debug-bin/Debug/net472/DarkId.Papyrus.DebugAdapterProxy." ++ toolGameName
      ++ "/")
     ++ ("DarkId.Papyrus.DebugAdapterProxy." ++ toolGameName ++ ".exe")).

Definition getPyroDirPath : Async World string :=
  _asExtensionAbsolutePath "./pyro".

Definition getPyroCliPath : Async World string :=
  dir <- getPyroDirPath ;;
  ret (path_join deps [dir; "pyro.exe"]).

Definition getPyroRemPath : Async World string :=
  dir <- getPyroDirPath ;;
  ret (path_join deps [dir; "remote"]).

Definition getResourceDir : Async World string :=
  _asExtensionAbsolutePath "./resources".

Definition getWelcomeFile : Async World string :=
  dir <- getResourceDir ;;
  ret (path_join deps [dir; "welcome"; "index.md"]).

(** [config.installPath] is read before the call, on a configuration entry
    that may be [undefined]. *)
Definition getInstallPath (game : PapyrusGame) : Async World (option string) :=
  config <- _getGameConfig game ;;
  configured <- member config installPath ;;
  resolveInstallPath (pr_env deps) game configured (pr_context deps).

Definition getModDirectoryPath (game : PapyrusGame) : Async World (option string) :=
  config <- _getGameConfig game ;;
  match config with
  | None => ret None
  | Some c => ret (Some (modDirectoryPath c))
  end.

(** A path is truthy when it is neither [null] nor the empty string. The
    arguments of [path.join] are evaluated from left to right, so the plugin
    name is computed last. *)
Definition getDebugPluginInstallPath (game : PapyrusGame) (legacy : option bool)
  : Async World (option string) :=
  modDirectory <- getModDirectoryPath game ;;
  match modDirectory with
  | Some (String c rest) =>
      pluginPath <- _getModMgrExtenderPluginPath game ;;
      dll <- getPluginDllName (pr_PapyrusGame_toString deps) game legacy ;;
      ret (Some (path_join deps
                   [String c rest; "Papyrus Debug Extension"; pluginPath; dll]))
  | _ =>
      resolved <- getInstallPath game ;;
      match resolved with
      | Some (String c rest) =>
          pluginPath <- _getExtenderPluginPath game ;;
          dll <- getPluginDllName (pr_PapyrusGame_toString deps) game legacy ;;
          ret (Some (path_join deps [String c rest; pluginPath; dll]))
      | _ => ret None
      end
  end.

End Methods.

End PathResolverClass.

(* ===================================================================== *)
(** ** Notions used to state the properties of the factory                *)
(* ===================================================================== *)

Module FactoryNotions.

Import Extension.

(** A computation on the heap that leaves the session object as it is,
    whatever it returns or throws. *)
Definition keeps_session {World A : Type} (m : Async (Heap World) A) : Prop :=
  forall h, session (snd (m h)) = session h.

(** The configured path passed an existence check that left the state
    [w']. *)
Definition checked_existing {World : Type} (env : PathEnv World) (p : string)
    (w' : World) : Prop :=
  exists w0, exists_ env p w0 = (true, w').

End FactoryNotions.

(* ===================================================================== *)
(** ** More concrete inputs                                               *)
(* ===================================================================== *)

Module MoreSamples.

Import Extension.
Local Open Scope string_scope.

(** Services with everything in place: the plugin installed, the game
    running, Creation Kit found. *)
Definition services_ready : Services (list string) :=
  {| getInstallState := fun _ => Samples.logging "getInstallState" (otherInstallState "installed");
     config := Samples.logging "config"
       (fun _ => Some {| ignoreDebuggerVersion := false;
                         creationKitIniFiles := ["CreationKit.ini"];
                         installPath := "C:\Games\Fallout4";
                         modDirectoryPath := EmptyString |});
     creationKitInfos_get := fun _ =>
       Samples.logging "creationKitInfo"
               {| resolvedInstallPath := Some "C:\Games\Fallout4"; Papyrus := None |};
     getPyroRemPath := Samples.logging "getPyroRemPath" "pyro/remote";
     getDebugToolPath := fun _ => Samples.logging "getDebugToolPath" "proxy.exe";
     OutputChannel := unit;
     getLanguageClientHost_outputChannel := fun _ =>
       Samples.logging "getLanguageClientHost" (Some tt);
     appendLine := fun _ _ => Samples.logging "appendLine" tt;
     showWarningMessage := fun _ _ => Samples.logging "showWarningMessage" None;
     showInformationMessage := fun _ _ => Samples.logging "showInformationMessage" None;
     executeCommand := fun _ => Samples.logging "executeCommand" tt;
     openExternal := fun _ => Samples.logging "openExternal" tt;
     showGameDisabledMessage := fun _ => Samples.logging "showGameDisabledMessage" tt;
     showGameMissingMessage := fun _ => Samples.logging "showGameMissingMessage" tt;
     getGameIsRunning := fun _ => Samples.logging "getGameIsRunning" true;
     PapyrusGame_toString := PapyrusGame_toString Samples.services_gameMissing;
     getDisplayNameForGame := getRegistryKeyForGame;
     getShortDisplayNameForGame := getToolGameName;
     getScriptExtenderName := getScriptExtenderName Samples.services_gameMissing;
     getScriptExtenderUrl := fun _ => "https://example.invalid/extender";
     toCommandLineArgs := fun a =>
       ["--creationKitInstallPath"; creationKitInstallPath a];
     VSCODE_PID := fun _ => Some "4242";
     Number_parseInt := fun _ => Finite 4242 |}.

(** The same with no Creation Kit install path. *)
Definition services_no_creation_kit : Services (list string) :=
  {| getInstallState := getInstallState services_ready;
     config := config services_ready;
     creationKitInfos_get := fun _ =>
       Samples.logging "creationKitInfo"
               {| resolvedInstallPath := None; Papyrus := None |};
     getPyroRemPath := getPyroRemPath services_ready;
     getDebugToolPath := getDebugToolPath services_ready;
     OutputChannel := unit;
     getLanguageClientHost_outputChannel := fun _ =>
       Samples.logging "getLanguageClientHost" (Some tt);
     appendLine := fun _ _ => Samples.logging "appendLine" tt;
     showWarningMessage := showWarningMessage services_ready;
     showInformationMessage := showInformationMessage services_ready;
     executeCommand := executeCommand services_ready;
     openExternal := openExternal services_ready;
     showGameDisabledMessage := showGameDisabledMessage services_ready;
     showGameMissingMessage := showGameMissingMessage services_ready;
     getGameIsRunning := getGameIsRunning services_ready;
     PapyrusGame_toString := PapyrusGame_toString services_ready;
     getDisplayNameForGame := getDisplayNameForGame services_ready;
     getShortDisplayNameForGame := getShortDisplayNameForGame services_ready;
     getScriptExtenderName := getScriptExtenderName services_ready;
     getScriptExtenderUrl := getScriptExtenderUrl services_ready;
     toCommandLineArgs := toCommandLineArgs services_ready;
     VSCODE_PID := VSCODE_PID services_ready;
     Number_parseInt := Number_parseInt services_ready |}.


(** A file system, as the list of the paths that exist, with a log of the
    calls made. *)
Record Disk : Type := {
  files : list string;
  calls : list string
}.

Definition called (name : string) (d : Disk) : Disk :=
  {| files := files d; calls := (calls d ++ [name])%list |}.

Definition disk_env (registryValue : option string) : PathEnv Disk :=
  {| exists_ := fun p d =>
       (existsb (String.eqb p) (files d), called "exists" d);
     process_arch := "x64";
     reg_get := fun _ _ d =>
       (match registryValue with
        | Some v => Returned (Some {| value := v |})
        | None => Threw (Error "registry key not found")
        end, called "reg.get" d);
     inDevelopmentEnvironment := fun _ => false |}.

Definition context_sample : ExtensionContext :=
  {| extensionPath := "/ext";
     asAbsolutePath := fun p => "/ext/" ++ p |}.

Definition deps_of (entry : option IGameConfig) (registryValue : option string)
  : PathResolverClass.Deps Disk :=
  {| PathResolverClass.pr_config := fun d => (Returned (fun _ => entry), called "config" d);
     PathResolverClass.pr_context := context_sample;
     PathResolverClass.pr_env := disk_env registryValue;
     PathResolverClass.path_join := String.concat "/";
     PathResolverClass.pr_getScriptExtenderName :=
       getScriptExtenderName Samples.services_gameMissing;
     PathResolverClass.pr_PapyrusGame_toString :=
       PapyrusGame_toString Samples.services_gameMissing |}.

Definition entry_with_mod_directory : IGameConfig :=
  {| ignoreDebuggerVersion := false;
     creationKitIniFiles := [];
     installPath := "C:\Games\Fallout4";
     modDirectoryPath := "C:\MO2\mods" |}.

Definition entry_without_mod_directory : IGameConfig :=
  {| ignoreDebuggerVersion := false;
     creationKitIniFiles := [];
     installPath := "C:\Games\Skyrim";
     modDirectoryPath := EmptyString |}.

Definition disk_empty : Disk := {| files := []; calls := [] |}.

Definition disk_with_game : Disk :=
  {| files := ["C:\Games\Skyrim"]; calls := [] |}.

(** A header with the return type [int] present. *)
Definition header_typed
  : InternalSyntax.FunctionHeaderSyntax string string string string :=
  {| InternalSyntax.TypeIdentifier := Some "int ";
     InternalSyntax.FunctionOrEventKeyword := Some "Function ";
     InternalSyntax.Identifier := Some "Foo";
     InternalSyntax.OpenParen := Some "(";
     InternalSyntax.Parameters := Some [Some "int a, "; Some "int b = 1"];
     InternalSyntax.CloseParen := Some ")" |}.

End MoreSamples.

(* ===================================================================== *)
(** ** Properties of [FunctionHeaderSyntax]                               *)
(* ===================================================================== *)

Section FunctionHeaderProperties.

Import InternalSyntax.

Variable SyntaxKind : Type.
Variable SyntaxKind_FunctionHeader : SyntaxKind.
Variables TypeIdentifierSyntax SyntaxToken ExpressionSyntax
          FunctionParameterSyntax : Type.

Local Abbreviation Header :=
  (FunctionHeaderSyntax TypeIdentifierSyntax SyntaxToken ExpressionSyntax
                        FunctionParameterSyntax).

(** A loop whose body yields one item per element yields the mapped list
    and completes. *)
Lemma foreach_list_yield (X Y : Type) (f : X -> Y) (xs : list X) :
  foreach_list xs (fun x => yield_return (f x)) = (map f xs, inr tt).
Proof.
  induction xs as [|x rest IH]; simpl.
  - reflexivity.
  - rewrite IH. reflexivity.
Qed.

(** The items of the enumeration when the parameter list is not null. *)
Lemma ChildrenInternal_items (this : Header) ps :
  Parameters this = Some ps ->
  ChildrenInternal this =
    ([upcast (@GreenTypeIdentifier _ _ _ _) (TypeIdentifier this);
      upcast (@GreenToken _ _ _ _) (FunctionOrEventKeyword this);
      upcast (@GreenExpression _ _ _ _) (Identifier this);
      upcast (@GreenToken _ _ _ _) (OpenParen this)]
     ++ map (upcast (@GreenFunctionParameter _ _ _ _)) ps
     ++ [upcast (@GreenToken _ _ _ _) (CloseParen this)], inr tt).
Proof.
  intros Hps. unfold ChildrenInternal, foreach. rewrite Hps.
  rewrite foreach_list_yield. simpl. reflexivity.
Qed.

(** With a null parameter list the enumeration stops at the loop, after
    the four leading slots. *)
Lemma ChildrenInternal_null_parameters (this : Header) :
  Parameters this = None ->
  ChildrenInternal this =
    ([upcast (@GreenTypeIdentifier _ _ _ _) (TypeIdentifier this);
      upcast (@GreenToken _ _ _ _) (FunctionOrEventKeyword this);
      upcast (@GreenExpression _ _ _ _) (Identifier this);
      upcast (@GreenToken _ _ _ _) (OpenParen this)],
     inl NullReferenceException).
Proof.
  intros Hps. unfold ChildrenInternal, foreach. rewrite Hps. reflexivity.
Qed.

(** The first item is the return-type slot, whatever the node holds. *)
Lemma ChildrenInternal_first (this : Header) :
  hd_error (yielded (ChildrenInternal this))
  = Some (upcast (@GreenTypeIdentifier _ _ _ _) (TypeIdentifier this)).
Proof.
  destruct (Parameters this) as [ps|] eqn:Hps.
  - rewrite (ChildrenInternal_items this Hps). reflexivity.
  - rewrite (ChildrenInternal_null_parameters this Hps). reflexivity.
Qed.

(** C1, as the code has it: [CreateRed] on a function header raises
    [NotImplementedException] for every node, parent and position; it
    returns no red node at all. *)
Theorem CreateRed_raises (this : Header)
    (parent : ref (SyntaxNode TypeIdentifierSyntax SyntaxToken ExpressionSyntax
                              FunctionParameterSyntax))
    (position : Z) :
  CreateRed this parent position = inl NotImplementedException.
Proof. reflexivity. Qed.

(** The sample header, a null parent and position zero. *)
Example CreateRed_header_Foo :
  CreateRed Samples.header_Foo null 0%Z = inl NotImplementedException.
Proof. reflexivity. Qed.

(** C2: a header with [n] parameters enumerates [5 + n] children: the
    return-type slot, the keyword, the name, the open delimiter, the
    parameters in their order and the close delimiter; the enumeration
    completes, and the return-type slot is the first item whether or not
    it holds a node. *)
Theorem ChildrenInternal_order (this : Header)
    (ps : list (ref FunctionParameterSyntax)) (n : nat) :
  Parameters this = Some ps ->
  List.length ps = n ->
  yielded (ChildrenInternal this)
  = [upcast (@GreenTypeIdentifier _ _ _ _) (TypeIdentifier this);
     upcast (@GreenToken _ _ _ _) (FunctionOrEventKeyword this);
     upcast (@GreenExpression _ _ _ _) (Identifier this);
     upcast (@GreenToken _ _ _ _) (OpenParen this)]
    ++ map (upcast (@GreenFunctionParameter _ _ _ _)) ps
    ++ [upcast (@GreenToken _ _ _ _) (CloseParen this)]
  /\ List.length (yielded (ChildrenInternal this)) = 5 + n
  /\ completed (ChildrenInternal this) = true
  /\ nth_error (yielded (ChildrenInternal this)) 0
     = Some (upcast (@GreenTypeIdentifier _ _ _ _) (TypeIdentifier this)).
Proof.
  intros Hps Hn. rewrite (ChildrenInternal_items this Hps).
  unfold yielded, completed. cbn [fst snd].
  repeat split.
  cbn [app List.length]. rewrite length_app, length_map. cbn [List.length]. lia.
Qed.

(** C5: the effecting dispatch runs the function-header handler of the
    visitor, once and nothing else (the log of a recording visitor gains
    exactly that call); the generic-result dispatch returns what the
    function-header handler returns; and an effecting visitor that stores
    the results of a generic-result visitor stores exactly the value the
    generic-result dispatch returns. *)
Theorem Accept_dispatch (this : Header)
    (S T : Type) (visitor : IGreenNodeVisitor TypeIdentifierSyntax SyntaxToken
                              ExpressionSyntax FunctionParameterSyntax S)
    (visitorT : IGreenNodeVisitorT TypeIdentifierSyntax SyntaxToken
                  ExpressionSyntax FunctionParameterSyntax T)
    (s : S) (log : list (HandlerCall TypeIdentifierSyntax SyntaxToken
                           ExpressionSyntax FunctionParameterSyntax))
    (out : list T) :
  Accept this visitor s = Visit_FunctionHeader visitor this s
  /\ Accept this (recording visitor) (s, log)
     = (Visit_FunctionHeader visitor this s, log ++ [CallFunctionHeader this])
  /\ AcceptT this visitorT = VisitT_FunctionHeader visitorT this
  /\ Accept this (storing visitorT) out = out ++ [AcceptT this visitorT].
Proof. repeat split. Qed.

(** C6: the constructor returns for every combination of arguments, null
    references included, and every slot of the node holds the argument
    given for it. *)
Theorem constructor_total
    (typeIdentifier : ref TypeIdentifierSyntax)
    (functionorEventKeyword : ref SyntaxToken)
    (identifier : ref ExpressionSyntax)
    (openParen : ref SyntaxToken)
    (parameters : ref (list (ref FunctionParameterSyntax)))
    (closeParen : ref SyntaxToken) :
  exists node : Header,
    new_FunctionHeaderSyntax typeIdentifier functionorEventKeyword identifier
                             openParen parameters closeParen = inr node
    /\ TypeIdentifier node = typeIdentifier
    /\ FunctionOrEventKeyword node = functionorEventKeyword
    /\ Identifier node = identifier
    /\ OpenParen node = openParen
    /\ Parameters node = parameters
    /\ CloseParen node = closeParen.
Proof. eexists. repeat split. Qed.

(** C7: a function header reports the [FunctionHeader] kind and no other,
    whatever its slots hold and however it was obtained; the kind of the
    node the constructor returns is that one too. *)
Theorem Kind_fixed (this other : Header)
    (typeIdentifier : ref TypeIdentifierSyntax)
    (functionorEventKeyword : ref SyntaxToken)
    (identifier : ref ExpressionSyntax)
    (openParen : ref SyntaxToken)
    (parameters : ref (list (ref FunctionParameterSyntax)))
    (closeParen : ref SyntaxToken) :
  Kind SyntaxKind_FunctionHeader this = SyntaxKind_FunctionHeader
  /\ Kind SyntaxKind_FunctionHeader other = Kind SyntaxKind_FunctionHeader this
  /\ match new_FunctionHeaderSyntax typeIdentifier functionorEventKeyword
             identifier openParen parameters closeParen with
     | inr node => Kind SyntaxKind_FunctionHeader node = SyntaxKind_FunctionHeader
     | inl _ => False
     end.
Proof. repeat split. Qed.

End FunctionHeaderProperties.

(** The header of [Function Foo(int a, int b = 1)] has two parameters and
    seven children. *)
Lemma ChildrenInternal_order_witness :
  InternalSyntax.Parameters Samples.header_Foo
  = Some [Some "int a, "%string; Some "int b = 1"%string]
  /\ List.length (InternalSyntax.yielded
                    (InternalSyntax.ChildrenInternal Samples.header_Foo)) = 7
  /\ nth_error (InternalSyntax.yielded
                  (InternalSyntax.ChildrenInternal Samples.header_Foo)) 0
     = Some None.
Proof.
  pose proof (@ChildrenInternal_order string string string string
                Samples.header_Foo
                [Some "int a, "%string; Some "int b = 1"%string] 2
                eq_refl eq_refl) as H.
  split; [reflexivity|].
  split; [exact (proj1 (proj2 H)) | exact (proj2 (proj2 (proj2 H)))].
Defined.

(* ===================================================================== *)
(** ** The width invariant of green trees                                 *)
(* ===================================================================== *)

Section WidthInvariant.

Import GreenModel.

Variable NodeKind : Type.

Local Abbreviation Tree := (Green NodeKind).

Lemma subtrees_child (k : NodeKind) (cs : list Tree) (w : nat) (c n : Tree) :
  In c cs -> In n (subtrees c) -> In n (subtrees (Node k cs w)).
Proof.
  intros Hc Hn. cbn [subtrees]. right.
  apply in_flat_map. exists c. split; assumption.
Qed.

Lemma below_children (k : NodeKind) (cs : list Tree) (w : nat) :
  width_invariant_below (Node k cs w) ->
  forall c, In c cs -> width_invariant_below c.
Proof.
  intros H c Hc n Hn. apply H. eapply subtrees_child; eassumption.
Qed.

(** Construction establishes the equation at the new node and keeps it
    below. *)
Lemma below_make_node (k : NodeKind) (cs : list Tree) :
  (forall c, In c cs -> width_invariant_below c) ->
  width_invariant_below (make_node k cs).
Proof.
  intros H n Hn. unfold make_node in Hn. cbn [subtrees] in Hn.
  destruct Hn as [<- | Hn].
  - reflexivity.
  - apply in_flat_map in Hn. destruct Hn as [c [Hc Hn]].
    exact (H c Hc n Hn).
Qed.

Lemma in_nth_error (cs : list Tree) (i : nat) (c : Tree) :
  nth_error cs i = Some c -> In c cs.
Proof. apply nth_error_In. Qed.

Lemma in_firstn (cs : list Tree) (i : nat) (c : Tree) :
  In c (firstn i cs) -> In c cs.
Proof.
  intros H. rewrite <- (firstn_skipn i cs). apply in_or_app. left. exact H.
Qed.

Lemma in_skipn (cs : list Tree) (i : nat) (c : Tree) :
  In c (skipn i cs) -> In c cs.
Proof.
  intros H. rewrite <- (firstn_skipn i cs). apply in_or_app. right. exact H.
Qed.

(** Replacement keeps the equation: the ancestors on the path are built
    again, everything else is reused. *)
Lemma below_replace_at (path : list nat) (new : Tree) :
  width_invariant_below new ->
  forall g, width_invariant_below g ->
            width_invariant_below (replace_at path new g).
Proof.
  intros Hnew. induction path as [|i rest IH]; intros g Hg.
  - exact Hnew.
  - destruct g as [k t d | k cs w]; cbn [replace_at].
    + exact Hg.
    + destruct (nth_error cs i) as [c|] eqn:Hi.
      * apply below_make_node. intros c' Hc'.
        apply in_app_or in Hc'. destruct Hc' as [Hc' | [<- | Hc']].
        -- apply (below_children Hg). eapply in_firstn; exact Hc'.
        -- apply IH. apply (below_children Hg). eapply in_nth_error; exact Hi.
        -- apply (below_children Hg). eapply in_skipn; exact Hc'.
      * exact Hg.
Qed.

(** C4: in every tree the operations produce (tokens, construction from a
    kind and children, replacement inside a tree), every node's cached
    width is the sum of the widths of its children. *)
Theorem width_invariant (root : Tree) :
  Produced root ->
  forall n, In n (subtrees root) -> width_equation n.
Proof.
  intros HP. change (width_invariant_below root).
  induction HP as [k t d | k cs _ IH | path new g _ IHg _ IHnew].
  - intros n [<- | []]. exact I.
  - apply below_make_node. exact IH.
  - apply below_replace_at; assumption.
Qed.

(** A replacement leaves the tree it started from as it was, and reuses
    the siblings of the replaced child. *)
Lemma replace_at_siblings (i j : nat) (rest : list nat) (new : Tree)
    (k : NodeKind) (cs : list Tree) (w : nat) (c : Tree) :
  nth_error cs i = Some c -> j <> i ->
  nth_error (children_of (replace_at (i :: rest) new (Node k cs w))) j
  = nth_error cs j.
Proof.
  intros Hi Hj. cbn [replace_at]. rewrite Hi. cbn [make_node children_of].
  assert (Hlen : i < List.length cs) by (apply nth_error_Some; congruence).
  destruct (Nat.lt_ge_cases j i) as [Hlt | Hge].
  - rewrite nth_error_app1 by (rewrite length_firstn; lia).
    rewrite nth_error_firstn.
    destruct (Nat.ltb_spec j i); [reflexivity | lia].
  - rewrite nth_error_app2 by (rewrite length_firstn; lia).
    rewrite length_firstn, Nat.min_l by lia.
    destruct (j - i) as [|d] eqn:Hd; [lia|].
    cbn [nth_error]. rewrite nth_error_skipn. f_equal. lia.
Qed.

End WidthInvariant.

(** The edited sample header is a produced tree, and its root satisfies the
    width equation. *)
Lemma width_invariant_witness :
  GreenModel.Produced Samples.green_header_edited
  /\ In Samples.green_header_edited (GreenModel.subtrees Samples.green_header_edited)
  /\ GreenModel.width_equation Samples.green_header_edited.
Proof.
  assert (Htok : forall t, GreenModel.Produced (Samples.tok t))
    by (intros t; apply GreenModel.Produced_token).
  assert (HP : GreenModel.Produced Samples.green_header_edited).
  { unfold Samples.green_header_edited.
    apply GreenModel.Produced_replace; [|apply Htok].
    unfold Samples.green_header_Foo. apply GreenModel.Produced_node.
    intros c Hc. cbn [In] in Hc.
    destruct Hc as [<-|[<-|[<-|[<-|[<-|[<-|[<-|[]]]]]]]];
      try apply Htok; try apply GreenModel.Produced_token;
      apply GreenModel.Produced_node; intros c Hc; cbn [In] in Hc;
      repeat (destruct Hc as [<-|Hc]; [apply Htok|]); destruct Hc. }
  assert (Hin : In Samples.green_header_edited
                   (GreenModel.subtrees Samples.green_header_edited))
    by (left; reflexivity).
  split; [exact HP|]. split; [exact Hin|].
  exact (@width_invariant string Samples.green_header_edited HP
           Samples.green_header_edited Hin).
Defined.

(** The widths of the sample header before and after the edit are the
    lengths of the two source texts. *)
Example width_green_header_Foo :
  GreenModel.width Samples.green_header_Foo = 30
  /\ GreenModel.width Samples.green_header_edited = 34.
Proof. split; reflexivity. Qed.

Section HeaderWidth.

Import GreenModel.

Variable NodeKind : Type.
Variable FunctionHeaderKind : NodeKind.

(** The generic node of a function header is built from the children the
    header enumerates, so its width is the sum of theirs. *)
Lemma header_node_width (h : GreenHeader NodeKind) (g : Green NodeKind) :
  header_node FunctionHeaderKind h = Some g ->
  exists cs,
    all_present (@erase NodeKind)
                (InternalSyntax.yielded (InternalSyntax.ChildrenInternal h))
    = Some cs
    /\ kind_of g = FunctionHeaderKind
    /\ children_of g = cs
    /\ width g = sum_widths cs.
Proof.
  unfold header_node. intros H.
  destruct (InternalSyntax.completed (InternalSyntax.ChildrenInternal h));
    [|discriminate].
  destruct (all_present _ _) as [cs|]; [|discriminate].
  injection H as <-. exists cs. repeat split.
Qed.

End HeaderWidth.

(* ===================================================================== *)
(** ** Properties of the editor glue                                      *)
(* ===================================================================== *)

Section ExtensionProperties.

Import Extension.
Local Open Scope string_scope.

Variable World : Type.

(** Running a bind is running its first part and then, on a value, the
    rest. *)
Lemma bind_returned (St A B : Type) (m : Async St A) (f : A -> Async St B)
    (s s' : St) (a : A) :
  m s = (Returned a, s') -> bind m f s = f a s'.
Proof. intros H. unfold bind. rewrite H. reflexivity. Qed.

Lemma bind_threw (St A B : Type) (m : Async St A) (f : A -> Async St B)
    (s s' : St) (e : Thrown) :
  m s = (Threw e, s') -> bind m f s = (Threw e, s').
Proof. intros H. unfold bind. rewrite H. reflexivity. Qed.

Lemma lift_returned (A : Type) (c : Async World A) (h : Heap World)
    (a : A) (w' : World) :
  c (host h) = (Returned a, w') ->
  lift c h = (Returned a, mkHeap (session h) w').
Proof. intros H. unfold lift. rewrite H. reflexivity. Qed.

Lemma PapyrusGame_eqb_eq (a b : PapyrusGame) :
  PapyrusGame_eqb a b = true <-> a = b.
Proof. destruct a, b; simpl; split; intros H; congruence. Qed.

(** C9: [resolveInstallPath] always returns, and what it returns is what
    its description gives: the configured path when it exists, the
    registry being left alone; otherwise the registry value when the
    lookup succeeds and the value exists; otherwise, the lookup having
    failed or not, the development compilers path in a development
    environment for a game other than classic Skyrim, and null in the
    remaining cases. *)
Theorem resolveInstallPath_returns (env : PathEnv World) (game : PapyrusGame)
    (installPath : string) (context : ExtensionContext) (w : World) :
  resolveInstallPath env game installPath context w
  = (Returned (fst (resolveInstallPath_described env game installPath context w)),
     snd (resolveInstallPath_described env game installPath context w)).
Proof.
  unfold resolveInstallPath, resolveInstallPath_described, exists_async,
    bind, try_catch, member, gets, ret, throw, developmentFallback.
  destruct (exists_ env installPath w) as [[|] w0]; [reflexivity|].
  destruct (reg_get env _ _ w0) as [[[item|]|e] w1]; cbn.
  - destruct (exists_ env (value item) w1) as [[|] w2]; cbn; [reflexivity|].
    destruct (inDevelopmentEnvironment env w2), game; reflexivity.
  - destruct (inDevelopmentEnvironment env w1), game; reflexivity.
  - destruct (inDevelopmentEnvironment env w1), game; reflexivity.
Qed.

(** When the configured path exists, it is the result, and the state is
    the one the single existence check left: no registry lookup ran. *)
Lemma resolveInstallPath_configured (env : PathEnv World) (game : PapyrusGame)
    (installPath : string) (context : ExtensionContext) (w w0 : World) :
  exists_ env installPath w = (true, w0) ->
  resolveInstallPath env game installPath context w
  = (Returned (Some installPath), w0).
Proof.
  intros H. unfold resolveInstallPath, exists_async, bind.
  rewrite H. reflexivity.
Qed.

Variable svc : Services World.

(** C8: for a session whose game is neither Fallout 4 nor Skyrim Special
    Edition the factory throws the not-supported error and leaves the
    state as it found it, whatever the services are: no install-state
    check and no configuration lookup has run. *)
Theorem createDebugAdapterDescriptor_unsupported
    (_executable : DebugAdapterExecutable) (h : Heap World) :
  game (configuration (session h)) <> fallout4 ->
  game (configuration (session h)) <> skyrimSpecialEdition ->
  createDebugAdapterDescriptor svc _executable h
  = (Threw (Error ("'" ++ PapyrusGame_toString svc (game (configuration (session h)))
                   ++ "' is not supported by the Papyrus debugger.")), h).
Proof.
  intros Hf Hs. unfold createDebugAdapterDescriptor, bind, gets.
  destruct (game (configuration (session h))); try congruence.
  reflexivity.
Qed.

(** C10: for a supported game, when the readiness flow returns false the
    factory returns the no-op executable, with [noop] set on the session
    and the rest of the state as the flow left it: nothing of the launch
    path has run. *)
Theorem createDebugAdapterDescriptor_noop
    (_executable : DebugAdapterExecutable) (h : Heap World) (w' : World) :
  game (configuration (session h)) = fallout4
  \/ game (configuration (session h)) = skyrimSpecialEdition ->
  ensureReadyFlow svc (game (configuration (session h))) (host h)
  = (Returned false, w') ->
  createDebugAdapterDescriptor svc _executable h
  = (Returned noopExecutable, mkHeap (set_noop true (session h)) w').
Proof.
  intros Hgame Hflow. unfold createDebugAdapterDescriptor.
  unfold bind at 1. unfold gets at 1.
  assert (Hsup : negb (PapyrusGame_eqb (game (configuration (session h))) fallout4)
                 && negb (PapyrusGame_eqb (game (configuration (session h)))
                                          skyrimSpecialEdition) = false)
    by (destruct Hgame as [-> | ->]; reflexivity).
  cbv beta. rewrite Hsup.
  erewrite bind_returned by (apply lift_returned; exact Hflow).
  reflexivity.
Qed.

(** The flow returns false when the game is missing or disabled, once the
    message call has returned. *)
Lemma ensureReadyFlow_gameMissing (g : PapyrusGame) (w w1 w2 : World) :
  getInstallState svc g w = (Returned gameMissing, w1) ->
  showGameMissingMessage svc g w1 = (Returned tt, w2) ->
  ensureReadyFlow svc g w = (Returned false, w2).
Proof.
  intros H1 H2. unfold ensureReadyFlow.
  erewrite bind_returned by exact H1.
  erewrite bind_returned by (erewrite bind_returned by exact H2; reflexivity).
  reflexivity.
Qed.

Lemma ensureReadyFlow_gameDisabled (g : PapyrusGame) (w w1 w2 : World) :
  getInstallState svc g w = (Returned gameDisabled, w1) ->
  showGameDisabledMessage svc g w1 = (Returned tt, w2) ->
  ensureReadyFlow svc g w = (Returned false, w2).
Proof.
  intros H1 H2. unfold ensureReadyFlow.
  erewrite bind_returned by exact H1.
  erewrite bind_returned by (erewrite bind_returned by exact H2; reflexivity).
  reflexivity.
Qed.

(** With the plugin not installed the flow never proceeds: it returns
    false or throws. *)
Lemma ensureReadyFlow_notInstalled (g : PapyrusGame) (w w1 : World) :
  getInstallState svc g w = (Returned notInstalled, w1) ->
  fst (ensureReadyFlow svc g w) <> Returned true.
Proof.
  intros H1. unfold ensureReadyFlow.
  erewrite bind_returned by exact H1. unfold bind, ret.
  destruct (showInformationMessage svc _ _ w1) as [[sel|e] w2]; cbn;
    [|discriminate].
  destruct (is_choice sel _).
  - destruct (executeCommand svc _ w2) as [[[]|e] w3]; cbn; discriminate.
  - destruct (is_choice sel _).
    + destruct (openExternal svc _ w2) as [[[]|e] w3]; cbn; discriminate.
    + cbn. discriminate.
Qed.

(** With the game not running and the warning dismissed or cancelled, the
    flow returns false. *)
Lemma ensureReadyFlow_not_running (g : PapyrusGame) (name : string)
    (selected : option string) (w w1 w2 w3 : World) :
  getInstallState svc g w = (Returned (otherInstallState name), w1) ->
  getGameIsRunning svc g w1 = (Returned false, w2) ->
  showWarningMessage svc
    ("Make sure that " ++ getDisplayNameForGame svc g
     ++ " is running and is either in-game or at the main menu.")
    ["Continue"; "Cancel"] w2 = (Returned selected, w3) ->
  selected <> Some "Continue" ->
  ensureReadyFlow svc g w = (Returned false, w3).
Proof.
  intros H1 H2 H3 Hsel. unfold ensureReadyFlow.
  erewrite bind_returned by exact H1.
  erewrite bind_returned by reflexivity.
  cbv beta iota.
  erewrite bind_returned by exact H2. cbn [negb].
  erewrite bind_returned by exact H3.
  assert (Hc : is_choice selected "Continue" = false).
  { destruct selected as [s|]; [|reflexivity]. cbn.
    destruct (String.eqb_spec s "Continue"); [congruence | reflexivity]. }
  rewrite Hc. reflexivity.
Qed.

End ExtensionProperties.

(** Classic Skyrim is refused, and the log of calls stays empty. *)
Lemma createDebugAdapterDescriptor_unsupported_witness :
  Extension.createDebugAdapterDescriptor Samples.services_gameMissing
    Extension.noopExecutable (Samples.heap_of Extension.skyrim)
  = (Extension.Threw
       (Extension.Error "'skyrim' is not supported by the Papyrus debugger."),
     Samples.heap_of Extension.skyrim).
Proof.
  apply (@createDebugAdapterDescriptor_unsupported (list string)
           Samples.services_gameMissing Extension.noopExecutable
           (Samples.heap_of Extension.skyrim)).
  - simpl. discriminate.
  - simpl. discriminate.
Defined.

(** Fallout 4 with the game missing: the flow declines after two calls and
    the factory answers with the no-op executable. *)
Lemma createDebugAdapterDescriptor_noop_witness :
  Extension.createDebugAdapterDescriptor Samples.services_gameMissing
    Extension.noopExecutable (Samples.heap_of Extension.fallout4)
  = (Extension.Returned Extension.noopExecutable,
     Extension.mkHeap
       (Extension.set_noop true (Samples.session_of Extension.fallout4))
       ["getInstallState"%string; "showGameMissingMessage"%string]).
Proof.
  apply (@createDebugAdapterDescriptor_noop (list string)
           Samples.services_gameMissing Extension.noopExecutable
           (Samples.heap_of Extension.fallout4)
           ["getInstallState"%string; "showGameMissingMessage"%string]).
  - left. reflexivity.
  - reflexivity.
Defined.

(* ===================================================================== *)
(** ** Further properties of [FunctionHeaderSyntax]                       *)
(* ===================================================================== *)

Section FunctionHeaderChildren.

Import InternalSyntax.

Variables TypeIdentifierSyntax SyntaxToken ExpressionSyntax
          FunctionParameterSyntax : Type.

Local Abbreviation Header :=
  (FunctionHeaderSyntax TypeIdentifierSyntax SyntaxToken ExpressionSyntax
                        FunctionParameterSyntax).
Local Abbreviation Node :=
  (GreenNode TypeIdentifierSyntax SyntaxToken ExpressionSyntax
             FunctionParameterSyntax).

(** An upcast loses nothing: the reference can be read back from it. *)
Lemma upcast_inj (A : Type) (inj : A -> Node) :
  (forall a b, inj a = inj b -> a = b) ->
  forall r r' : ref A, upcast inj r = upcast inj r' -> r = r'.
Proof.
  intros Hinj [a|] [b|] H; cbn in H; try discriminate; [|reflexivity].
  injection H as H. f_equal. apply Hinj. exact H.
Qed.

Lemma map_inj (A B : Type) (f : A -> B) :
  (forall a b, f a = f b -> a = b) ->
  forall l l', map f l = map f l' -> l = l'.
Proof.
  intros Hf l. induction l as [|a l IH]; intros [|b l'] H; cbn in H;
    try discriminate; [reflexivity|].
  injection H as Hab Hl. f_equal; [apply Hf; exact Hab | apply IH; exact Hl].
Qed.

(** The enumeration stops with an exception exactly when the parameter list
    is null, after four items; otherwise it has five items more than there
    are parameters. *)
Theorem ChildrenInternal_completion (this : Header) :
  completed (ChildrenInternal this)
  = match Parameters this with Some _ => true | None => false end
  /\ List.length (yielded (ChildrenInternal this))
     = match Parameters this with
       | Some ps => 5 + List.length ps
       | None => 4
       end
  /\ snd (ChildrenInternal this)
     = match Parameters this with
       | Some _ => inr tt
       | None => inl NullReferenceException
       end.
Proof.
  destruct (Parameters this) as [ps|] eqn:Hps.
  - rewrite (ChildrenInternal_items this Hps). unfold completed, yielded.
    cbn [fst snd]. repeat split.
    cbn [app List.length]. rewrite length_app, length_map. cbn [List.length]. lia.
  - rewrite (ChildrenInternal_null_parameters this Hps). repeat split.
Qed.

(** The parameter at index [i] is the child at index [4 + i], and the close
    delimiter is the child after the last parameter. *)
Theorem ChildrenInternal_parameter_position (this : Header)
    (ps : list (ref FunctionParameterSyntax)) (i : nat) :
  Parameters this = Some ps ->
  i < List.length ps ->
  nth_error (yielded (ChildrenInternal this)) (4 + i)
  = option_map (upcast (@GreenFunctionParameter _ _ _ _)) (nth_error ps i)
  /\ nth_error (yielded (ChildrenInternal this)) (4 + List.length ps)
     = Some (upcast (@GreenToken _ _ _ _) (CloseParen this)).
Proof.
  intros Hps Hi. rewrite (ChildrenInternal_items this Hps).
  unfold yielded. cbn [fst]. cbn [app plus nth_error]. split.
  - rewrite nth_error_app1 by (rewrite length_map; exact Hi).
    apply nth_error_map.
  - rewrite nth_error_app2 by (rewrite length_map; lia).
    rewrite length_map, Nat.sub_diag. reflexivity.
Qed.

(** A header whose enumeration completes is determined by the children it
    yields: two headers with the same children have the same slots. *)
Theorem ChildrenInternal_determines_header (this other : Header) :
  completed (ChildrenInternal this) = true ->
  yielded (ChildrenInternal this) = yielded (ChildrenInternal other) ->
  this = other.
Proof.
  intros Hc Hy.
  destruct (Parameters this) as [ps|] eqn:Hps.
  2:{ rewrite (ChildrenInternal_null_parameters this Hps) in Hc. discriminate. }
  destruct (Parameters other) as [ps'|] eqn:Hps'.
  2:{ apply (f_equal (@List.length _)) in Hy.
      rewrite (ChildrenInternal_items this Hps) in Hy.
      rewrite (ChildrenInternal_null_parameters other Hps') in Hy.
      unfold yielded in Hy. cbn [fst app List.length] in Hy.
      rewrite length_app in Hy. cbn [List.length] in Hy. lia. }
  rewrite (ChildrenInternal_items this Hps),
          (ChildrenInternal_items other Hps') in Hy.
  unfold yielded in Hy. cbn [fst app] in Hy.
  injection Hy as H1 H2 H3 H4 Hrest.
  apply app_inj_tail in Hrest. destruct Hrest as [Hmap Hclose].
  apply upcast_inj in H1; [|intros a b E; injection E; auto].
  apply upcast_inj in H2; [|intros a b E; injection E; auto].
  apply upcast_inj in H3; [|intros a b E; injection E; auto].
  apply upcast_inj in H4; [|intros a b E; injection E; auto].
  apply upcast_inj in Hclose; [|intros a b E; injection E; auto].
  apply map_inj in Hmap;
    [|apply upcast_inj; intros a b E; injection E; auto].
  destruct this, other. cbn in *. congruence.
Qed.

End FunctionHeaderChildren.

(** In the sample header the second parameter is the child at index 5 and
    the close delimiter the child at index 6. *)
Lemma ChildrenInternal_parameter_position_witness :
  nth_error (InternalSyntax.yielded
               (InternalSyntax.ChildrenInternal Samples.header_Foo)) (4 + 1)
  = Some (Some (InternalSyntax.GreenFunctionParameter string string string
                  "int b = 1"%string))
  /\ nth_error (InternalSyntax.yielded
                  (InternalSyntax.ChildrenInternal Samples.header_Foo)) (4 + 2)
     = Some (Some (InternalSyntax.GreenToken string string string ")"%string)).
Proof.
  apply (@ChildrenInternal_parameter_position string string string string
           Samples.header_Foo
           [Some "int a, "%string; Some "int b = 1"%string] 1).
  - reflexivity.
  - simpl. lia.
Defined.

(** A header equal in children to the sample header is the sample header. *)
Lemma ChildrenInternal_determines_header_witness :
  Samples.header_Foo
  = InternalSyntax.mkFunctionHeaderSyntax InternalSyntax.null
      (Some "Function "%string) (Some "Foo"%string) (Some "("%string)
      (Some [Some "int a, "%string; Some "int b = 1"%string])
      (Some ")"%string).
Proof.
  apply (@ChildrenInternal_determines_header string string string string).
  - reflexivity.
  - reflexivity.
Defined.

(* ===================================================================== *)
(** ** Further properties of the debug adapter factory                    *)
(* ===================================================================== *)

Section FactoryProperties.

Import Extension FactoryNotions.
Local Open Scope string_scope.

Variable World : Type.
Variable svc : Services World.

Lemma is_choice_true (selected : option string) (label : string) :
  is_choice selected label = true -> selected = Some label.
Proof.
  destruct selected as [s|]; cbn; [|discriminate].
  intros H. apply String.eqb_eq in H. congruence.
Qed.

(** The port handed to the debug tool is a number other than zero. *)
Lemma number_or_default (p : option number) (g : PapyrusGame) :
  exists z, number_or p (getDefaultPortForGame g) = Finite z /\ z <> 0%Z.
Proof.
  destruct p as [[|z]|]; cbn.
  - destruct g; cbn; eexists; split; try reflexivity; lia.
  - destruct (Z.eqb_spec z 0).
    + destruct g; cbn; eexists; split; try reflexivity; lia.
    + exists z. split; [reflexivity | assumption].
  - destruct g; cbn; eexists; split; try reflexivity; lia.
Qed.

(** Case analysis on the next call whose result the computation in [H]
    inspects. *)
Ltac next_call H :=
  match type of H with
  | context [match ?x with _ => _ end] =>
      lazymatch x with
      | context [match _ with _ => _ end] => fail
      | _ => destruct x eqn:?
      end
  end.

(** With the plugin not installed, or the game disabled or missing, the
    readiness flow never lets the session proceed: it returns false or
    throws, whatever the user answers. *)
Theorem ensureReadyFlow_never_proceeds (g : PapyrusGame)
    (installState : DebugSupportInstallState) (w w1 : World) :
  getInstallState svc g w = (Returned installState, w1) ->
  installState = notInstalled \/ installState = gameDisabled
  \/ installState = gameMissing ->
  fst (ensureReadyFlow svc g w) <> Returned true.
Proof.
  intros H1 Hst Htrue.
  destruct (ensureReadyFlow svc g w) as [r w'] eqn:H. cbn in Htrue. subst r.
  unfold ensureReadyFlow in H. erewrite bind_returned in H by exact H1.
  unfold bind, ret in H.
  destruct Hst as [-> | [-> | ->]];
    repeat next_call H; try discriminate.
Qed.

(** The readiness flow returns true only after the game was found running,
    or after the user answered the warning with Continue. *)
Theorem ensureReadyFlow_true_only_if_running (g : PapyrusGame) (w w' : World) :
  ensureReadyFlow svc g w = (Returned true, w') ->
  exists w1,
    getGameIsRunning svc g w1 = (Returned true, w')
    \/ exists w2,
         getGameIsRunning svc g w1 = (Returned false, w2)
         /\ showWarningMessage svc
              ("Make sure that " ++ getDisplayNameForGame svc g
               ++ " is running and is either in-game or at the main menu.")
              ["Continue"; "Cancel"] w2
            = (Returned (Some "Continue"), w').
Proof.
  intros H. unfold ensureReadyFlow, bind, ret, throw, member in H.
  repeat next_call H; try discriminate;
    inversion H; subst; clear H;
    repeat match goal with
           | E : negb ?b = true |- _ => apply negb_true_iff in E; subst b
           | b : bool, E : negb ?b = false |- _ =>
               apply negb_false_iff in E; subst b
           | E : negb (is_choice ?o _) = false |- _ =>
               apply negb_false_iff, is_choice_true in E; subst o
           end;
    first [ eexists; left; eassumption
          | eexists; right; eexists; split; eassumption ].
Qed.


(** What a computation that returned was made of. *)
Lemma bind_inv (St A B : Type) (m : Async St A) (f : A -> Async St B)
    (s s' : St) (b : B) :
  bind m f s = (Returned b, s') ->
  exists a s1, m s = (Returned a, s1) /\ f a s1 = (Returned b, s').
Proof.
  unfold bind. destruct (m s) as [[a|e] s1]; intros H; [|discriminate].
  exists a, s1. split; [reflexivity | exact H].
Qed.

Lemma lift_inv (A : Type) (c : Async World A) (h h1 : Heap World) (a : A) :
  lift c h = (Returned a, h1) ->
  exists w, c (host h) = (Returned a, w) /\ h1 = mkHeap (session h) w.
Proof.
  unfold lift. destruct (c (host h)) as [r w]. intros H.
  injection H as -> <-. exists w. split; reflexivity.
Qed.

Lemma gets_inv (St A : Type) (f : St -> A) (s s' : St) (a : A) :
  gets f s = (Returned a, s') -> a = f s /\ s' = s.
Proof. unfold gets. intros H. injection H as <- <-. split; reflexivity. Qed.

Lemma member_inv (St A B : Type) (o : option A) (f : A -> B) (s s' : St) (b : B) :
  member o f s = (Returned b, s') ->
  exists a, o = Some a /\ b = f a /\ s' = s.
Proof.
  destruct o as [a|]; cbn; intros H; [|discriminate].
  injection H as <- <-. exists a. repeat split.
Qed.

(** The pieces the factory is made of keep the session. *)
Lemma keeps_ret (A : Type) (a : A) : keeps_session (World:=World) (ret a).
Proof. intros h. reflexivity. Qed.

Lemma keeps_throw (A : Type) (e : Thrown) :
  keeps_session (World:=World) (A:=A) (throw e).
Proof. intros h. reflexivity. Qed.

Lemma keeps_gets (A : Type) (f : Heap World -> A) : keeps_session (gets f).
Proof. intros h. reflexivity. Qed.

Lemma keeps_member (A B : Type) (o : option A) (f : A -> B) :
  keeps_session (World:=World) (member o f).
Proof. intros h. destruct o; reflexivity. Qed.

Lemma keeps_lift (A : Type) (c : Async World A) : keeps_session (lift c).
Proof. intros h. unfold lift. destruct (c (host h)). reflexivity. Qed.

Lemma keeps_bind (A B : Type) (m : Async (Heap World) A)
    (f : A -> Async (Heap World) B) :
  keeps_session m -> (forall a, keeps_session (f a)) -> keeps_session (bind m f).
Proof.
  intros Hm Hf h. unfold bind. specialize (Hm h).
  destruct (m h) as [[a|e] h1]; cbn in Hm |- *.
  - rewrite (Hf a h1). exact Hm.
  - exact Hm.
Qed.

Ltac keeps :=
  repeat first
    [ apply keeps_ret | apply keeps_throw | apply keeps_gets
    | apply keeps_member | apply keeps_lift
    | apply keeps_bind; [|intros]
    | match goal with
      | |- keeps_session (if ?b then _ else _) => destruct b
      | |- keeps_session (match ?o with _ => _ end) => destruct o
      end ].

(** Every run of the factory leaves the session as it was, except that it
    sets [noop] when it returns the no-op executable; the game, the port and
    the project path of the session are never written, also when the
    factory throws. *)
Theorem createDebugAdapterDescriptor_session
    (_executable : DebugAdapterExecutable) (h : Heap World) :
  session (snd (createDebugAdapterDescriptor svc _executable h)) = session h
  \/ (fst (createDebugAdapterDescriptor svc _executable h) = Returned noopExecutable
      /\ session (snd (createDebugAdapterDescriptor svc _executable h))
         = set_noop true (session h)).
Proof.
  destruct (createDebugAdapterDescriptor svc _executable h) as [r h'] eqn:Hrun.
  cbn [fst snd].
  unfold createDebugAdapterDescriptor in Hrun.
  unfold bind at 1 in Hrun. unfold gets at 1 in Hrun. cbv beta in Hrun.
  destruct (negb _ && negb _).
  { injection Hrun as <- <-. left. reflexivity. }
  unfold bind at 1 in Hrun.
  pose proof (keeps_lift (ensureReadyFlow svc (game (configuration (session h)))) h)
    as Hlift.
  destruct (lift (ensureReadyFlow svc (game (configuration (session h)))) h)
    as [[ready|e] h1]; cbn [snd] in Hlift.
  - destruct ready; cbn [negb] in Hrun.
    + left. rewrite <- Hlift.
      match type of Hrun with ?m h1 = _ =>
        assert (Hk : keeps_session m) by keeps;
        specialize (Hk h1); rewrite Hrun in Hk; exact Hk
      end.
    + right. injection Hrun as <- <-. rewrite <- Hlift. split; reflexivity.
  - injection Hrun as <- <-. left. exact Hlift.
Qed.

(** When Creation Kit has no resolved install path (null or empty) the
    factory throws, and neither the path of the remotes nor the path of the
    debug tool has been asked for: the state is the one the Creation Kit
    lookup left. *)
Theorem createDebugAdapterDescriptor_no_install_path
    (_executable : DebugAdapterExecutable) (h : Heap World)
    (allConfig : IExtensionConfig) (info : ICreationKitInfo) (w1 w2 w3 : World) :
  game (configuration (session h)) = fallout4
  \/ game (configuration (session h)) = skyrimSpecialEdition ->
  ensureReadyFlow svc (game (configuration (session h))) (host h)
  = (Returned true, w1) ->
  config svc w1 = (Returned allConfig, w2) ->
  creationKitInfos_get svc (game (configuration (session h))) w2
  = (Returned info, w3) ->
  string_falsy (resolvedInstallPath info) = true ->
  createDebugAdapterDescriptor svc _executable h
  = (Threw (Error ("Creation Kit install path for "
                   ++ getDisplayNameForGame svc (game (configuration (session h)))
                   ++ " is not configured.")),
     mkHeap (session h) w3).
Proof.
  intros Hgame Hflow Hcfg Hinfo Hfalsy.
  unfold createDebugAdapterDescriptor. unfold bind at 1. unfold gets at 1.
  cbv beta.
  assert (Hsup : negb (PapyrusGame_eqb (game (configuration (session h))) fallout4)
                 && negb (PapyrusGame_eqb (game (configuration (session h)))
                                          skyrimSpecialEdition) = false)
    by (destruct Hgame as [-> | ->]; reflexivity).
  rewrite Hsup.
  erewrite bind_returned by (apply lift_returned; exact Hflow).
  cbn [negb].
  erewrite bind_returned by (apply lift_returned; exact Hcfg).
  erewrite bind_returned by (apply lift_returned; exact Hinfo).
  rewrite Hfalsy. reflexivity.
Qed.

(** When the readiness flow lets the session proceed and the factory
    returns, the executable it returns is the debug tool: its command is the
    path the path resolver gave, its arguments are the command line of tool
    arguments whose Creation Kit path is the resolved, non-empty one and
    whose port is a number other than zero, the default of the game when the
    session has none; the session is unchanged. *)
Theorem createDebugAdapterDescriptor_launch
    (_executable : DebugAdapterExecutable) (h h' : Heap World)
    (d : DebugAdapterDescriptor) (w1 : World) :
  game (configuration (session h)) = fallout4
  \/ game (configuration (session h)) = skyrimSpecialEdition ->
  ensureReadyFlow svc (game (configuration (session h))) (host h)
  = (Returned true, w1) ->
  createDebugAdapterDescriptor svc _executable h = (Returned d, h') ->
  exists (toolArguments : IDebugToolArguments) (info : ICreationKitInfo)
         (wa wb wc wd : World),
    creationKitInfos_get svc (game (configuration (session h))) wa
    = (Returned info, wb)
    /\ getDebugToolPath svc (game (configuration (session h))) wc
       = (Returned (command d), wd)
    /\ args d = toCommandLineArgs svc toolArguments
    /\ resolvedInstallPath info = Some (creationKitInstallPath toolArguments)
    /\ creationKitInstallPath toolArguments <> EmptyString
    /\ (exists z, arg_port toolArguments = Some (Finite z) /\ z <> 0%Z)
    /\ (port (configuration (session h)) = None ->
        arg_port toolArguments
        = Some (getDefaultPortForGame (game (configuration (session h)))))
    /\ arg_projectPath toolArguments = projectPath (configuration (session h))
    /\ session h' = session h.
Proof.
  intros Hgame Hflow Hrun.
  unfold createDebugAdapterDescriptor in Hrun.
  unfold bind at 1 in Hrun. unfold gets at 1 in Hrun. cbv beta in Hrun.
  assert (Hsup : negb (PapyrusGame_eqb (game (configuration (session h))) fallout4)
                 && negb (PapyrusGame_eqb (game (configuration (session h)))
                                          skyrimSpecialEdition) = false)
    by (destruct Hgame as [-> | ->]; reflexivity).
  rewrite Hsup in Hrun.
  erewrite bind_returned in Hrun by (apply lift_returned; exact Hflow).
  cbn [negb] in Hrun.
  apply bind_inv in Hrun as (allConfig & h2 & Hcfg & Hrun).
  apply lift_inv in Hcfg as (w2 & _ & ->).
  apply bind_inv in Hrun as (info & h3 & Hinfo & Hrun).
  apply lift_inv in Hinfo as (w3 & Hinfo & ->). cbn [host session] in Hinfo.
  destruct (resolvedInstallPath info) as [[|c p]|] eqn:Hpath;
    cbn [string_falsy] in Hrun; try discriminate.
  apply bind_inv in Hrun as (sessionPort & h4 & Hport & Hrun).
  apply gets_inv in Hport as [-> ->].
  apply bind_inv in Hrun as (sessionProjectPath & h5 & Hproject & Hrun).
  apply gets_inv in Hproject as [-> ->].
  apply bind_inv in Hrun as (iniFiles & h6 & Hini & Hrun).
  apply member_inv in Hini as (gameConfig & _ & -> & ->).
  apply bind_inv in Hrun as (pid & h7 & Hpid & Hrun).
  apply gets_inv in Hpid as [-> ->].
  apply bind_inv in Hrun as (remotes & h8 & Hrem & Hrun).
  apply lift_inv in Hrem as (w4 & _ & ->).
  apply bind_inv in Hrun as (toolPath & h9 & Htool & Hrun).
  apply lift_inv in Htool as (w5 & Htool & ->). cbn [host session] in Htool.
  apply bind_inv in Hrun as (sessionGame & h10 & Hsg & Hrun).
  apply gets_inv in Hsg as [-> ->].
  apply bind_inv in Hrun as (channel & h11 & Hch & Hrun).
  apply lift_inv in Hch as (w6 & _ & ->).
  apply bind_inv in Hrun as ([] & h12 & Hlog & Hrun).
  assert (Hsession : session h12 = session h).
  { destruct channel as [ch|].
    - apply lift_inv in Hlog as (w7 & _ & ->). reflexivity.
    - injection Hlog as <-. reflexivity. }
  injection Hrun as <- <-.
  eexists _, info, w2, w3, w4, w5.
  cbn [command args creationKitInstallPath arg_port arg_projectPath session host].
  split; [exact Hinfo|]. split; [exact Htool|]. split; [reflexivity|].
  split; [exact Hpath|]. split; [discriminate|].
  split.
  { destruct (number_or_default (port (configuration (session h)))
                (game (configuration (session h)))) as (z & Hz & Hnz).
    exists z. cbn [arg_port]. rewrite Hz. split; [reflexivity | exact Hnz]. }
  split; [intros Hp; rewrite Hp; reflexivity|].
  split; [reflexivity | exact Hsession].
Qed.

End FactoryProperties.

(** With the game missing, Fallout 4 is not let through. *)
Lemma ensureReadyFlow_never_proceeds_witness :
  fst (Extension.ensureReadyFlow Samples.services_gameMissing Extension.fallout4 [])
  <> Extension.Returned true.
Proof.
  apply (@ensureReadyFlow_never_proceeds (list string) Samples.services_gameMissing
           Extension.fallout4 Extension.gameMissing []
           ["getInstallState"%string]).
  - reflexivity.
  - right. right. reflexivity.
Defined.

(** With everything in place the flow returns true after the check that
    the game is running. *)
Lemma ensureReadyFlow_true_only_if_running_witness :
  exists w1,
    Extension.getGameIsRunning MoreSamples.services_ready Extension.fallout4 w1
    = (Extension.Returned true,
       ["getInstallState"%string; "getGameIsRunning"%string])
    \/ exists w2,
         Extension.getGameIsRunning MoreSamples.services_ready Extension.fallout4 w1
         = (Extension.Returned false, w2)
         /\ Extension.showWarningMessage MoreSamples.services_ready
              ("Make sure that "
               ++ Extension.getDisplayNameForGame MoreSamples.services_ready
                    Extension.fallout4
               ++ " is running and is either in-game or at the main menu.")%string
              ["Continue"%string; "Cancel"%string] w2
            = (Extension.Returned (Some "Continue"%string),
               ["getInstallState"%string; "getGameIsRunning"%string]).
Proof.
  apply (@ensureReadyFlow_true_only_if_running (list string)
           MoreSamples.services_ready Extension.fallout4 []
           ["getInstallState"%string; "getGameIsRunning"%string]).
  reflexivity.
Defined.


(** No Creation Kit install path: the factory throws after the Creation Kit
    lookup, the fifth call. *)
Lemma createDebugAdapterDescriptor_no_install_path_witness :
  Extension.createDebugAdapterDescriptor MoreSamples.services_no_creation_kit
    Extension.noopExecutable (Samples.heap_of Extension.fallout4)
  = (Extension.Threw
       (Extension.Error "Creation Kit install path for Fallout4 is not configured."),
     Extension.mkHeap (Samples.session_of Extension.fallout4)
       ["getInstallState"%string; "getGameIsRunning"%string; "config"%string;
        "creationKitInfo"%string]).
Proof.
  apply (@createDebugAdapterDescriptor_no_install_path (list string)
           MoreSamples.services_no_creation_kit Extension.noopExecutable
           (Samples.heap_of Extension.fallout4)
           (fun _ => Some {| Extension.ignoreDebuggerVersion := false;
                             Extension.creationKitIniFiles := ["CreationKit.ini"%string];
                             Extension.installPath := "C:\Games\Fallout4"%string;
                             Extension.modDirectoryPath := EmptyString |})
           {| Extension.resolvedInstallPath := None; Extension.Papyrus := None |}
           ["getInstallState"%string; "getGameIsRunning"%string]
           ["getInstallState"%string; "getGameIsRunning"%string; "config"%string]
           ["getInstallState"%string; "getGameIsRunning"%string; "config"%string;
            "creationKitInfo"%string]).
  - left. reflexivity.
  - reflexivity.
  - reflexivity.
  - reflexivity.
  - reflexivity.
Defined.

(** With everything in place the factory returns the debug tool, on port
    2077 for Fallout 4. *)
Lemma createDebugAdapterDescriptor_launch_witness :
  exists (toolArguments : Extension.IDebugToolArguments)
         (info : Extension.ICreationKitInfo) (wa wb wc wd : list string),
    Extension.creationKitInfos_get MoreSamples.services_ready Extension.fallout4 wa
    = (Extension.Returned info, wb)
    /\ Extension.getDebugToolPath MoreSamples.services_ready Extension.fallout4 wc
       = (Extension.Returned "proxy.exe"%string, wd)
    /\ ["--creationKitInstallPath"%string; "C:\Games\Fallout4"%string]
       = Extension.toCommandLineArgs MoreSamples.services_ready toolArguments
    /\ Extension.resolvedInstallPath info
       = Some (Extension.creationKitInstallPath toolArguments)
    /\ Extension.creationKitInstallPath toolArguments <> EmptyString
    /\ (exists z, Extension.arg_port toolArguments = Some (Extension.Finite z)
                  /\ z <> 0%Z)
    /\ (@None Extension.number = None ->
        Extension.arg_port toolArguments = Some (Extension.Finite 2077))
    /\ Extension.arg_projectPath toolArguments = None
    /\ Samples.session_of Extension.fallout4 = Samples.session_of Extension.fallout4.
Proof.
  apply (@createDebugAdapterDescriptor_launch (list string)
           MoreSamples.services_ready Extension.noopExecutable
           (Samples.heap_of Extension.fallout4)
           (Extension.mkHeap (Samples.session_of Extension.fallout4)
              ["getInstallState"%string; "getGameIsRunning"%string;
               "config"%string; "creationKitInfo"%string;
               "getPyroRemPath"%string; "getDebugToolPath"%string;
               "getLanguageClientHost"%string; "appendLine"%string])
           (Extension.new_DebugAdapterExecutable "proxy.exe"
              ["--creationKitInstallPath"%string; "C:\Games\Fallout4"%string])
           ["getInstallState"%string; "getGameIsRunning"%string]).
  - left. reflexivity.
  - reflexivity.
  - reflexivity.
Defined.

(* ===================================================================== *)
(** ** Properties of the [PathResolver] class                             *)
(* ===================================================================== *)

Section PathResolverProperties.

Import Extension PathResolverClass FactoryNotions.
Local Open Scope string_scope.

Variable World : Type.

(** Every path [resolveInstallPath] returns either passed an existence
    check, the last thing done, or is the development compilers path, given
    only in a development environment and never for classic Skyrim. *)
Theorem resolveInstallPath_result_checked (env : PathEnv World)
    (game : PapyrusGame) (installPath : string) (context : ExtensionContext)
    (w w' : World) (p : string) :
  resolveInstallPath env game installPath context w = (Returned (Some p), w') ->
  checked_existing env p w'
  \/ (inDevelopmentEnvironment env w' = true
      /\ game <> skyrim
      /\ p = asAbsolutePath context "../../dependencies/compilers").
Proof.
  unfold resolveInstallPath, exists_async, bind, try_catch, member, gets, ret,
    throw, checked_existing.
  destruct (exists_ env installPath w) as [[|] w0] eqn:H0.
  { intros H. injection H as <- <-. left. exists w. exact H0. }
  assert (Hdev : forall w1,
             (if inDevelopmentEnvironment env w1 && negb (PapyrusGame_eqb game skyrim)
              then fun s : World =>
                     (Returned (Some (asAbsolutePath context "../../dependencies/compilers")), s)
              else fun s : World => (Returned None, s)) w1 = (Returned (Some p), w') ->
             inDevelopmentEnvironment env w' = true /\ game <> skyrim
             /\ p = asAbsolutePath context "../../dependencies/compilers").
  { intros w1 H.
    destruct (inDevelopmentEnvironment env w1) eqn:Hd; cbn in H; [|discriminate].
    destruct game; cbn in H; try discriminate;
      injection H as <- <-; repeat split; try exact Hd; discriminate. }
  destruct (reg_get env _ _ w0) as [[[item|]|e] w1]; cbn.
  - destruct (exists_ env (value item) w1) as [[|] w2] eqn:H1; cbn.
    + intros H. injection H as <- <-. left. exists w1. exact H1.
    + intros H. right. exact (Hdev w2 H).
  - intros H. right. exact (Hdev w1 H).
  - intros H. right. exact (Hdev w1 H).
Qed.

(** The registry keys of different games differ, on every architecture. *)
Theorem registryKey_injective (env : PathEnv World) (g1 g2 : PapyrusGame) :
  registryKey env g1 = registryKey env g2 -> g1 = g2.
Proof.
  unfold registryKey.
  destruct (String.eqb (process_arch env) "x64");
    destruct g1, g2; cbn; intros H; try reflexivity; discriminate H.
Qed.

(** Every game has an executable name in the table, and no two games share
    one. *)
Theorem getExecutableNameForGame_defined (g : PapyrusGame) :
  exists name,
    getExecutableNameForGame g = Some name
    /\ forall g', getExecutableNameForGame g' = Some name -> g' = g.
Proof.
  destruct g; eexists; (split; [reflexivity|]);
    intros g' H; destruct g'; cbn in H; try reflexivity; discriminate H.
Qed.

Variable deps : Deps World.

(** [getPluginDllName] refuses exactly the game the debug adapter factory
    refuses, with the same error, and touches nothing. *)
Theorem getPluginDllName_agrees_with_factory (svc : Services World)
    (_executable : DebugAdapterExecutable) (h : Heap World)
    (legacy : option bool) (w : World) :
  match getPluginDllName (PapyrusGame_toString svc)
          (game (configuration (session h))) legacy w with
  | (Threw e, w') =>
      w' = w /\ createDebugAdapterDescriptor svc _executable h = (Threw e, h)
  | (Returned _, w') =>
      w' = w
      /\ (game (configuration (session h)) = fallout4
          \/ game (configuration (session h)) = skyrimSpecialEdition)
  end.
Proof.
  unfold createDebugAdapterDescriptor, bind, gets.
  destruct (game (configuration (session h))); cbn.
  - split; [reflexivity | left; reflexivity].
  - split; reflexivity.
  - split; [reflexivity | right; reflexivity].
Qed.

(** With a mod directory configured, the plugin install path is built under
    it after the one configuration lookup: the install path is not resolved,
    so neither the disk nor the registry is consulted; for classic Skyrim
    the call throws the not-supported error instead. *)
Theorem getDebugPluginInstallPath_mod_directory (g : PapyrusGame)
    (legacy : option bool) (allConfig : IExtensionConfig) (entry : IGameConfig)
    (w w1 : World) :
  pr_config deps w = (Returned allConfig, w1) ->
  allConfig g = Some entry ->
  modDirectoryPath entry <> EmptyString ->
  getDebugPluginInstallPath deps g legacy w
  = match getPluginDllName (pr_PapyrusGame_toString deps) g legacy w1 with
    | (Returned dll, _) =>
        (Returned
           (Some (path_join deps
                    [modDirectoryPath entry; "Papyrus Debug Extension";
                     pr_getScriptExtenderName deps g ++ "/Plugins"; dll])),
         w1)
    | (Threw e, _) => (Threw e, w1)
    end.
Proof.
  intros Hcfg Hentry Hmod.
  unfold getDebugPluginInstallPath, getModDirectoryPath, _getGameConfig.
  unfold bind at 1. unfold bind at 1. unfold bind at 1.
  rewrite Hcfg. unfold ret at 1. rewrite Hentry. unfold ret at 1.
  destruct (modDirectoryPath entry) as [|c rest]; [congruence|].
  unfold _getModMgrExtenderPluginPath, bind, ret.
  destruct g; reflexivity.
Qed.

(** With no mod directory and an install path that cannot be resolved, the
    plugin install path is null for every game, classic Skyrim included:
    the plugin name is not computed. *)
Theorem getDebugPluginInstallPath_unresolved (g : PapyrusGame)
    (legacy : option bool) (allConfig allConfig' : IExtensionConfig)
    (entry entry' : IGameConfig) (w w1 w2 w3 : World) :
  pr_config deps w = (Returned allConfig, w1) ->
  allConfig g = Some entry ->
  modDirectoryPath entry = EmptyString ->
  pr_config deps w1 = (Returned allConfig', w2) ->
  allConfig' g = Some entry' ->
  resolveInstallPath (pr_env deps) g (installPath entry') (pr_context deps) w2
  = (Returned None, w3) ->
  getDebugPluginInstallPath deps g legacy w = (Returned None, w3).
Proof.
  intros Hcfg Hentry Hmod Hcfg' Hentry' Hres.
  unfold getDebugPluginInstallPath, getModDirectoryPath.
  unfold bind at 1. unfold bind at 1. unfold _getGameConfig at 1.
  unfold bind at 1. rewrite Hcfg. unfold ret at 1. rewrite Hentry.
  unfold ret at 1. rewrite Hmod.
  unfold getInstallPath, _getGameConfig.
  unfold bind at 1. unfold bind at 1. unfold bind at 1.
  rewrite Hcfg'. unfold ret at 1. unfold bind at 1. rewrite Hentry'.
  unfold member, ret at 1. rewrite Hres. reflexivity.
Qed.


End PathResolverProperties.

(** The configured Skyrim directory is on disk, and is the path returned. *)
Lemma resolveInstallPath_result_checked_witness :
  FactoryNotions.checked_existing (MoreSamples.disk_env None)
    "C:\Games\Skyrim"%string
    (MoreSamples.called "exists" MoreSamples.disk_with_game)
  \/ (Extension.inDevelopmentEnvironment (MoreSamples.disk_env None)
        (MoreSamples.called "exists" MoreSamples.disk_with_game) = true
      /\ Extension.skyrim <> Extension.skyrim
      /\ "C:\Games\Skyrim"%string
         = Extension.asAbsolutePath MoreSamples.context_sample
             "../../dependencies/compilers").
Proof.
  apply (@resolveInstallPath_result_checked MoreSamples.Disk
           (MoreSamples.disk_env None) Extension.skyrim
           "C:\Games\Skyrim"%string MoreSamples.context_sample
           MoreSamples.disk_with_game).
  reflexivity.
Defined.

(** Equal keys, the same game. *)
Lemma registryKey_injective_witness :
  Extension.skyrimSpecialEdition = Extension.skyrimSpecialEdition.
Proof.
  apply (@registryKey_injective MoreSamples.Disk (MoreSamples.disk_env None)
           Extension.skyrimSpecialEdition Extension.skyrimSpecialEdition).
  reflexivity.
Defined.

(** Fallout 4 under a mod manager: the plugin goes below the mod directory,
    and only the configuration was read. *)
Lemma getDebugPluginInstallPath_mod_directory_witness :
  PathResolverClass.getDebugPluginInstallPath
    (MoreSamples.deps_of (Some MoreSamples.entry_with_mod_directory) None)
    Extension.fallout4 None MoreSamples.disk_empty
  = (Extension.Returned
       (Some "C:\MO2\mods/Papyrus Debug Extension/F4SE/Plugins/DarkId.Papyrus.DebugServer.Fallout4.dll"%string),
     MoreSamples.called "config" MoreSamples.disk_empty).
Proof.
  apply (@getDebugPluginInstallPath_mod_directory MoreSamples.Disk
           (MoreSamples.deps_of (Some MoreSamples.entry_with_mod_directory) None)
           Extension.fallout4 None
           (fun _ => Some MoreSamples.entry_with_mod_directory)
           MoreSamples.entry_with_mod_directory
           MoreSamples.disk_empty
           (MoreSamples.called "config" MoreSamples.disk_empty)).
  - reflexivity.
  - reflexivity.
  - simpl. discriminate.
Defined.

(** Classic Skyrim, nothing on disk and nothing in the registry: null, after
    two configuration lookups, one existence check and one registry
    lookup. *)
Lemma getDebugPluginInstallPath_unresolved_witness :
  PathResolverClass.getDebugPluginInstallPath
    (MoreSamples.deps_of (Some MoreSamples.entry_without_mod_directory) None)
    Extension.skyrim None MoreSamples.disk_empty
  = (Extension.Returned None,
     {| MoreSamples.files := [];
        MoreSamples.calls := ["config"%string; "config"%string;
                              "exists"%string; "reg.get"%string] |}).
Proof.
  apply (@getDebugPluginInstallPath_unresolved MoreSamples.Disk
           (MoreSamples.deps_of (Some MoreSamples.entry_without_mod_directory) None)
           Extension.skyrim None
           (fun _ => Some MoreSamples.entry_without_mod_directory)
           (fun _ => Some MoreSamples.entry_without_mod_directory)
           MoreSamples.entry_without_mod_directory
           MoreSamples.entry_without_mod_directory
           MoreSamples.disk_empty
           (MoreSamples.called "config" MoreSamples.disk_empty)
           (MoreSamples.called "config"
              (MoreSamples.called "config" MoreSamples.disk_empty))).
  - reflexivity.
  - reflexivity.
  - reflexivity.
  - reflexivity.
  - reflexivity.
  - reflexivity.
Defined.

